(** * statista.distributions: a shallow embedding

    The Python module [statista/distributions.py] fits four distribution
    families (Gumbel, GEV, Exponential, Normal) to a sample, tests the fit
    and computes confidence intervals.  This file embeds the control flow of
    that module: validation guards, exceptions, attribute reads and writes
    on the distribution object, console output, and the arithmetic the module
    performs itself.

    Conventions of the embedding.
    - A numpy [float64] is idealised as a real number.  [np.log] and
      [np.sqrt] are the real [ln] and [sqrt]; they agree with numpy on
      positive (resp. non-negative) arguments, which is where the statements
      below use them.
    - scipy's distribution primitives, the fit routines, the two tests and
      the simplex minimiser are parameters ([Externals]); so are the parts
      of the package that the module imports from sibling files
      ([Lmoments], [Tools.standardize]).
    - A Python exception is a value of [exn]; a call returns a [result].
    - A method that assigns attributes or prints threads a [process]
      (the object and the console) and keeps the changes made before a
      raise.
    - Only the [plot_figure=False] path of [pdf]/[cdf] is embedded. *)

From Stdlib Require Import Reals Lra Lia Ascii String.
From stdpp Require Import gmap strings list sorting.

Local Open Scope R_scope.

(** ** Python values and exceptions *)

#[global] Instance Rle_decision : RelDecision Rle := Rle_dec.
#[global] Instance Rlt_decision : RelDecision Rlt := Rlt_dec.
#[global] Instance Req_decision : EqDecision R := Req_dec_T.

Inductive exn : Type :=
| ValueError (msg : string)
| TypeError (msg : string)
| AttributeError (name : string)
| IndexError (msg : string)
| OtherError (msg : string).

Inductive result (A : Type) : Type :=
| Ok (a : A)
| Raise (e : exn).
Arguments Ok {A} a.
Arguments Raise {A} e.

#[global] Instance result_ret : MRet result := fun A a => Ok a.
#[global] Instance result_bind : MBind result :=
  fun A B f m => match m with Ok a => f a | Raise e => Raise e end.

Definition is_ValueError {A} (r : result A) : Prop :=
  match r with Raise (ValueError _) => True | _ => False end.

(** [x <= 0] where [x] came out of [dict.get]: comparing [None] with an
    integer raises [TypeError]. *)
Definition le0 (x : option R) : result bool :=
  match x with
  | Some v => Ok (bool_decide (v <= 0))
  | None => Raise (TypeError "'<=' not supported between instances of 'NoneType' and 'int'")
  end.

(** A value out of [dict.get] used as a number: arithmetic on [None]
    raises [TypeError]. *)
Definition as_float (x : option R) : result R :=
  match x with
  | Some v => Ok v
  | None => Raise (TypeError "unsupported operand type(s): 'NoneType'")
  end.

(** Truth value of a float, and the builtin [any]. *)
Definition truthy (x : R) : bool := negb (bool_decide (x = 0)).
Definition any (xs : list R) : bool := existsb truthy xs.

(** [l[j]] for a non-negative index. *)
Definition getitem (l : list R) (j : nat) : result R :=
  match l !! j with
  | Some x => Ok x
  | None => Raise (IndexError "index out of range")
  end.

(** A list comprehension whose body may raise. *)
Fixpoint comprehension {A B} (f : A -> result B) (xs : list A) : result (list B) :=
  match xs with
  | [] => Ok []
  | x :: xs' => y ← f x; ys ← comprehension f xs'; Ok (y :: ys)
  end.

(** [a.sum()] of a one-dimensional array; the empty sum is 0. *)
Definition np_sum (xs : list R) : R := foldr Rplus 0 xs.

#[global] Instance Rge_decision : RelDecision Rge := Rge_dec.

(** [str.lower] on ASCII text. *)
Definition ascii_lower (c : ascii) : ascii :=
  let n := nat_of_ascii c in
  if (65 <=? n)%nat && (n <=? 90)%nat then ascii_of_nat (n + 32) else c.

Fixpoint lower (s : string) : string :=
  match s with
  | EmptyString => EmptyString
  | String c s' => String (ascii_lower c) (lower s')
  end.

(** ** Arrays as objects: the store of [PlottingPosition.weibul] *)

(** [weibul] rebinds its parameter to a copy and sorts that copy with the
    in-place method [ndarray.sort].  Whether the caller can see the sort
    depends on object identity, so arrays live in a store here. *)
Module PlottingPosition.

Abbreviation store := (gmap positive (list R)).

(** [np.array(a)]: a new array object holding a copy of the elements. *)
Definition np_array (a : positive) (h : store) : option (positive * store) :=
  l ← h !! a;
  let a' := fresh (dom h) in
  Some (a', <[a' := l]> h).

(** [a.sort()]: the object [a] itself is reordered. *)
Definition ndarray_sort (a : positive) (h : store) : option store :=
  l ← h !! a;
  Some (<[a := merge_sort Rle l]> h).

(** [np.array(range(1, n + 1)) / (n + 1)] *)
Definition rank_probabilities (n : nat) : list R :=
  map (fun i => INR i / INR (n + 1)) (seq 1 n).

Definition return_period (F : list R) : list R :=
  map (fun f => 1 / (1 - f)) F.

Definition weibul (data : positive) (return_period_flag : bool) (h : store)
  : option (list R * store) :=
  '(data', h1) ← np_array data h;
  h2 ← ndarray_sort data' h1;
  l ← h2 !! data';
  let n := length l in
  let cdf := rank_probabilities n in
  if negb return_period_flag then Some (cdf, h2)
  else Some (return_period cdf, h2).

(** The value [weibul] returns, for callers that hold the sample by value. *)
Definition weibul_values (data : list R) (return_period_flag : bool) : list R :=
  let cdf := rank_probabilities (length data) in
  if negb return_period_flag then cdf else return_period cdf.

End PlottingPosition.

(** ** What the module imports *)

(** The objective handed to the minimiser: [ObjFunc(p, x)]. *)
Definition objective : Type := list R -> list R -> result R.

(** scipy's densities, distribution functions and quantile functions act
    elementwise and yield [nan] rather than raise, so they are total scalar
    functions here; the argument order is [x loc scale], with the shape [c]
    of [genextreme] after [x].  Fits, tests and the minimiser may raise.
    [Lmoments_*] and [standardize] stand for [statista.parameters.Lmoments]
    and [statista.tools.Tools.standardize]. *)
Class Externals : Type := {
  gumbel_r_pdf : R -> R -> R -> R;
  gumbel_r_cdf : R -> R -> R -> R;
  gumbel_r_fit : list R -> string -> result (list R);
  genextreme_pdf : R -> R -> R -> R -> R;
  genextreme_cdf : R -> R -> R -> R -> R;
  genextreme_ppf : R -> R -> R -> R -> R;
  genextreme_fit : list R -> string -> result (list R);
  expon_pdf : R -> R -> R -> R;
  expon_cdf : R -> R -> R -> R;
  expon_ppf : R -> R -> R -> R;
  expon_fit : list R -> string -> result (list R);
  norm_pdf : R -> R -> R -> R;
  norm_cdf : R -> R -> R -> R;
  norm_ppf : R -> R -> R -> R;
  norm_fit : list R -> string -> result (list R);
  ks_2samp : list R -> list R -> result (R * R);
  stats_chisquare : list R -> list R -> result (R * R);
  (** [so.fmin(ObjFunc, x0, args=(data,), maxiter=.., maxfun=..)] *)
  so_fmin : objective -> list R -> list R -> nat -> nat -> result (list R);
  Lmoments_Lmom : list R -> result (list R);
  Lmoments_gumbel : list R -> result (list R);
  Lmoments_gev : list R -> result (list R);
  Lmoments_exponential : list R -> result (list R);
  Lmoments_normal : list R -> result (list R);
  standardize : list R -> result (list R);
  (** [str(x)] of a float and of an exception *)
  str_float : R -> string;
  str_exn : exn -> string;
}.

(** ** The distribution object *)

(** An attribute that a constructor may leave unassigned is an [option]:
    [None] means the attribute does not exist and reading it raises
    [AttributeError].  This is the case of the four attributes derived from
    the sample, and of [parameters], [loc] and [scale], which are doubly
    optional: the attribute may be missing, and when present it may hold
    Python's [None].  The four test results are always assigned, and [None]
    there is Python's [None]. *)
Record Distribution : Type := {
  self_data : option (list R);
  self_data_sorted : option (list R);
  self_cdf_Weibul : option (list R);
  self_KStable : option R;
  self_parameters : option (option (gmap string R));
  self_loc : option (option R);
  self_scale : option (option R);
  self_Dstatic : option R;
  self_KS_Pvalue : option R;
  self_chistatic : option R;
  self_chi_Pvalue : option R;
}.

Definition set_parameters (v : option (gmap string R)) (d : Distribution) : Distribution :=
  {| self_data := self_data d; self_data_sorted := self_data_sorted d;
     self_cdf_Weibul := self_cdf_Weibul d; self_KStable := self_KStable d;
     self_parameters := Some v;
     self_loc := self_loc d; self_scale := self_scale d;
     self_Dstatic := self_Dstatic d; self_KS_Pvalue := self_KS_Pvalue d;
     self_chistatic := self_chistatic d; self_chi_Pvalue := self_chi_Pvalue d |}.

Definition set_Dstatic (v : option R) (d : Distribution) : Distribution :=
  {| self_data := self_data d; self_data_sorted := self_data_sorted d;
     self_cdf_Weibul := self_cdf_Weibul d; self_KStable := self_KStable d;
     self_parameters := self_parameters d;
     self_loc := self_loc d; self_scale := self_scale d;
     self_Dstatic := v; self_KS_Pvalue := self_KS_Pvalue d;
     self_chistatic := self_chistatic d; self_chi_Pvalue := self_chi_Pvalue d |}.

Definition set_KS_Pvalue (v : option R) (d : Distribution) : Distribution :=
  {| self_data := self_data d; self_data_sorted := self_data_sorted d;
     self_cdf_Weibul := self_cdf_Weibul d; self_KStable := self_KStable d;
     self_parameters := self_parameters d;
     self_loc := self_loc d; self_scale := self_scale d;
     self_Dstatic := self_Dstatic d; self_KS_Pvalue := v;
     self_chistatic := self_chistatic d; self_chi_Pvalue := self_chi_Pvalue d |}.

Definition set_chistatic (v : option R) (d : Distribution) : Distribution :=
  {| self_data := self_data d; self_data_sorted := self_data_sorted d;
     self_cdf_Weibul := self_cdf_Weibul d; self_KStable := self_KStable d;
     self_parameters := self_parameters d;
     self_loc := self_loc d; self_scale := self_scale d;
     self_Dstatic := self_Dstatic d; self_KS_Pvalue := self_KS_Pvalue d;
     self_chistatic := v; self_chi_Pvalue := self_chi_Pvalue d |}.

Definition set_chi_Pvalue (v : option R) (d : Distribution) : Distribution :=
  {| self_data := self_data d; self_data_sorted := self_data_sorted d;
     self_cdf_Weibul := self_cdf_Weibul d; self_KStable := self_KStable d;
     self_parameters := self_parameters d;
     self_loc := self_loc d; self_scale := self_scale d;
     self_Dstatic := self_Dstatic d; self_KS_Pvalue := self_KS_Pvalue d;
     self_chistatic := self_chistatic d; self_chi_Pvalue := v |}.

(** ** Methods with effects *)

(** The object a method runs on, and what has been printed so far. *)
Record process : Type := { obj : Distribution; stdout : list string }.

Definition M (A : Type) : Type := process -> result A * process.

#[global] Instance M_ret : MRet M := fun A a s => (Ok a, s).
#[global] Instance M_bind : MBind M :=
  fun A B f m s =>
    match m s with
    | (Ok a, s') => f a s'
    | (Raise e, s') => (Raise e, s')
    end.

Definition raise {A} (e : exn) : M A := fun s => (Raise e, s).

Definition lift {A} (r : result A) : M A := fun s => (r, s).

(** [self.name], where [proj] reads the attribute. *)
Definition getattr {A} (name : string) (proj : Distribution -> option A) : M A :=
  fun s =>
    match proj (obj s) with
    | Some v => (Ok v, s)
    | None => (Raise (AttributeError name), s)
    end.

(** [self.name = v], where [upd] writes the attribute. *)
Definition setattr (upd : Distribution -> Distribution) : M unit :=
  fun s => (Ok tt, {| obj := upd (obj s); stdout := stdout s |}).

Definition print (line : string) : M unit :=
  fun s => (Ok tt, {| obj := obj s; stdout := stdout s ++ [line] |}).

(** [try: body  except <handles> as e: handler e].  The handler starts from
    the state the body had reached. *)
Definition try_except {A} (body : M A) (handles : exn -> bool) (handler : exn -> M A) : M A :=
  fun s =>
    match body s with
    | (Raise e, s') => if handles e then handler e s' else (Raise e, s')
    | r => r
    end.

Definition except_Exception (e : exn) : bool := true.

Definition except_ValueError (e : exn) : bool :=
  match e with ValueError _ => true | _ => false end.

(** ** AbstractDistribution *)

Module AbstractDistribution.
Section methods.
Context `{Externals}.

(** [data] is [Some] when the caller passed a list or an array.  The
    sample is copied, a sorted copy and the plotting positions are cached,
    and the Kolmogorov-Smirnov critical value is [1.22 / sqrt(n)]. *)
Definition __init__ (data : option (list R)) (parameters : option (gmap string R))
  : Distribution :=
  {| self_data := data;
     self_data_sorted := merge_sort Rle <$> data;
     self_cdf_Weibul := (fun d => PlottingPosition.weibul_values d false) <$> data;
     self_KStable := (fun d => 1.22 / sqrt (INR (length d))) <$> data;
     self_parameters := Some parameters;
     self_loc := None;
     self_scale := None;
     self_Dstatic := None;
     self_KS_Pvalue := None;
     self_chistatic := None;
     self_chi_Pvalue := None |}.

(** The body of the abstract [pdf], reached through [super().pdf]: it picks
    the series to evaluate.  [actual_data = None] means the sample. *)
Definition pdf (self : Distribution) (parameters : gmap string R)
  (actual_data : option (list R)) : result (list R) :=
  match actual_data with
  | None =>
      match self_data self with
      | Some ts => Ok ts
      | None => Raise (AttributeError "data")
      end
  | Some ts => Ok ts
  end.

(** [theoretical_estimate] is the static method of the object's class.
    The comparison with [KStable] reads [self.Dstatic], which holds the
    statistic assigned just before. *)
Definition ks (theoretical_estimate : gmap string R -> list R -> result (list R))
  : M (R * R) :=
  parameters ← getattr "parameters" self_parameters;
  match parameters with
  | None =>
      raise (ValueError "Value of parameters is unknown please use 'EstimateParameter' to obtain estimate the distribution parameters")
  | Some parameters =>
      cdf_Weibul ← getattr "cdf_Weibul" self_cdf_Weibul;
      Qth ← lift (theoretical_estimate parameters cdf_Weibul);
      data ← getattr "data" self_data;
      test ← lift (ks_2samp data Qth);
      setattr (set_Dstatic (Some test.1));;
      setattr (set_KS_Pvalue (Some test.2));;
      print "-----KS Test--------";;
      print ("Statistic = " +:+ str_float test.1);;
      KStable ← getattr "KStable" self_KStable;
      (if bool_decide (test.1 < KStable) then print "Accept Hypothesis"
       else print "reject Hypothesis");;
      print ("P value = " +:+ str_float test.2);;
      mret test
  end.

(** The result is [None] when the handler ran. *)
Definition chisquare (theoretical_estimate : gmap string R -> list R -> result (list R))
  : M (option (R * R)) :=
  parameters ← getattr "parameters" self_parameters;
  match parameters with
  | None =>
      raise (ValueError "Value of loc/scale parameter is unknown please use 'EstimateParameter' to obtain them")
  | Some parameters =>
      cdf_Weibul ← getattr "cdf_Weibul" self_cdf_Weibul;
      Qth ← lift (theoretical_estimate parameters cdf_Weibul);
      try_except
        (Qth_std ← lift (standardize Qth);
         data ← getattr "data" self_data;
         data_std ← lift (standardize data);
         test ← lift (stats_chisquare Qth_std data_std);
         setattr (set_chistatic (Some test.1));;
         setattr (set_chi_Pvalue (Some test.2));;
         print "-----chisquare Test-----";;
         print ("Statistic = " +:+ str_float test.1);;
         print ("P value = " +:+ str_float test.2);;
         mret (Some test))
        except_Exception
        (fun e => print (str_exn e);; mret None)
  end.

End methods.
End AbstractDistribution.

(** The guard shared by the four [estimate_parameter] methods. *)
Definition known_method (method : string) : bool :=
  bool_decide (method ∈ ["mle"; "mm"; "lmoments"; "optimization"]).

(** ** Gumbel *)

Module Gumbel.
Section methods.
Context `{Externals}.

Definition __init__ (data : option (list R)) (parameters : option (gmap string R))
  : Distribution :=
  AbstractDistribution.__init__ data parameters.

Definition _pdf_eq (data : list R) (parameters : gmap string R) : result (list R) :=
  let loc := parameters !! "loc" in
  let scale := parameters !! "scale" in
  neg ← le0 scale;
  if (neg : bool) then Raise (ValueError "Scale parameter is negative")
  else
    loc ← as_float loc;
    scale ← as_float scale;
    Ok (map (fun x => gumbel_r_pdf x loc scale) data).

Definition pdf (self : Distribution) (parameters : gmap string R)
  (actual_data : option (list R)) : result (list R) :=
  ts ← AbstractDistribution.pdf self parameters actual_data;
  _pdf_eq ts parameters.

Definition _cdf_eq (data : list R) (parameters : gmap string R) : result (list R) :=
  let loc := parameters !! "loc" in
  let scale := parameters !! "scale" in
  neg ← le0 scale;
  if (neg : bool) then Raise (ValueError "Scale parameter is negative")
  else
    loc ← as_float loc;
    scale ← as_float scale;
    Ok (map (fun x => gumbel_r_cdf x loc scale) data).

(** [actual_data = None] stands for the default [True] (any [bool]). *)
Definition cdf (self : Distribution) (parameters : gmap string R)
  (actual_data : option (list R)) : result (list R) :=
  ts ← match actual_data with
       | None =>
           match self_data self with
           | Some ts => Ok ts
           | None => Raise (AttributeError "data")
           end
       | Some ts => Ok ts
       end;
  _cdf_eq ts parameters.

(** The truncated-likelihood objective, [ObjectiveFn(p, x)] with
    [p = [threshold, loc, scale]].  [x[x < threshold]] and
    [x[x >= threshold]] are boolean-mask selections.  [_cdf_eq] is handed the
    scalar [threshold]; a scalar goes through scipy as an array of one
    element, which is read back. *)
Definition ObjectiveFn (p x : list R) : result R :=
  threshold ← getitem p 0;
  loc ← getitem p 1;
  scale ← getitem p 2;
  let x1 := filter (fun v => v < threshold) x in
  let nx2 := length (filter (fun v => v >= threshold) x) in
  let parameters : gmap string R := <["scale" := scale]> (<["loc" := loc]> ∅) in
  pdf ← _pdf_eq x1 parameters;
  cdf ← _cdf_eq [threshold] parameters;
  cdf ← getitem cdf 0;
  let L1 := np_sum (map (fun d => - ln (d / scale)) pdf) in
  let L2 := (- ln (1 - cdf)) * INR nx2 in
  Ok (L1 + L2).

(** [any(cdf)] is a [bool]; the comparisons read it as 0 or 1. *)
Definition theoretical_estimate (parameters : gmap string R) (cdf : list R)
  : result (list R) :=
  let loc := parameters !! "loc" in
  let scale := parameters !! "scale" in
  neg ← le0 scale;
  if (neg : bool) then Raise (ValueError "Scale parameter is negative")
  else if (Z.b2z (any cdf) <=? 0)%Z || (Z.b2z (any cdf) >? 1)%Z
  then Raise (ValueError "cdf Value Invalid")
  else
    loc ← as_float loc;
    scale ← as_float scale;
    Ok (map (fun f => loc - scale * ln (- ln f)) cdf).

Definition ks : M (R * R) := AbstractDistribution.ks theoretical_estimate.

Definition chisquare : M (option (R * R)) :=
  AbstractDistribution.chisquare theoretical_estimate.

(** The last [elif] is the last entry of the list the guard checked, so the
    final branch cannot be reached. *)
Definition estimate_parameter (method : string) (ObjFunc : option objective)
  (threshold : option R) (test : bool) : M (gmap string R) :=
  let method := lower method in
  if negb (known_method method) then
    raise (ValueError (method +:+ " value should be 'mle', 'mm', 'lmoments' or 'optimization'"))
  else
    Param ← (if bool_decide (method = "mle") || bool_decide (method = "mm") then
               data ← getattr "data" self_data;
               lift (gumbel_r_fit data method)
             else if bool_decide (method = "lmoments") then
               data ← getattr "data" self_data;
               LMU ← lift (Lmoments_Lmom data);
               lift (Lmoments_gumbel LMU)
             else if bool_decide (method = "optimization") then
               match ObjFunc, threshold with
               | Some ObjFunc, Some threshold =>
                   data ← getattr "data" self_data;
                   Param ← lift (gumbel_r_fit data "mle");
                   p0 ← lift (getitem Param 0);
                   p1 ← lift (getitem Param 1);
                   data ← getattr "data" self_data;
                   Param ← lift (so_fmin ObjFunc [threshold; p0; p1] data 500 500);
                   q1 ← lift (getitem Param 1);
                   q2 ← lift (getitem Param 2);
                   mret [q1; q2]
               | _, _ => raise (TypeError "threshold should be numeric value")
               end
             else raise (OtherError "local variable 'Param' referenced before assignment"));
    loc ← lift (getitem Param 0);
    scale ← lift (getitem Param 1);
    let Param : gmap string R := <["scale" := scale]> (<["loc" := loc]> ∅) in
    setattr (set_parameters (Some Param));;
    (if test then ks;; chisquare;; mret tt else mret tt);;
    mret Param.

(** The closed-form interval.  The three comprehensions run over [F], and
    the two bounds are then assembled over [range(len(self.data))]. *)
Definition confidence_interval (self : Distribution) (parameters : gmap string R)
  (F : list R) (alpha : R) : result (list R * list R) :=
  let scale := parameters !! "scale" in
  neg ← le0 scale;
  if (neg : bool) then Raise (ValueError "Scale parameter is negative")
  else
    scale ← as_float scale;
    Qth ← theoretical_estimate parameters F;
    let Y := map (fun j => - ln (- ln j)) F in
    StdError ← comprehension
      (fun j =>
         data ← match self_data self with
                | Some d => Ok d
                | None => Raise (AttributeError "data")
                end;
         Ok ((scale / sqrt (INR (length data)))
             * sqrt (1.1087 + 0.5140 * j + 0.6079 * j ^ 2)))
      Y;
    let v := norm_ppf (1 - alpha / 2) 0 1 in
    data ← match self_data self with
           | Some d => Ok d
           | None => Raise (AttributeError "data")
           end;
    Qupper ← comprehension
      (fun j => q ← getitem Qth j; e ← getitem StdError j; Ok (q + v * e))
      (seq 0 (length data));
    data ← match self_data self with
           | Some d => Ok d
           | None => Raise (AttributeError "data")
           end;
    Qlower ← comprehension
      (fun j => q ← getitem Qth j; e ← getitem StdError j; Ok (q - v * e))
      (seq 0 (length data));
    Ok (Qupper, Qlower).

End methods.
End Gumbel.

(** ** GEV *)

Module GEV.
Section methods.
Context `{Externals}.

Definition __init__ (data : option (list R)) (parameters : option (gmap string R))
  : Distribution :=
  AbstractDistribution.__init__ data parameters.

Definition _pdf_eq (data : list R) (parameters : gmap string R) : result (list R) :=
  let loc := parameters !! "loc" in
  let scale := parameters !! "scale" in
  let shape := parameters !! "shape" in
  loc ← as_float loc;
  scale ← as_float scale;
  shape ← as_float shape;
  Ok (map (fun x => genextreme_pdf x shape loc scale) data).

Definition pdf (self : Distribution) (parameters : gmap string R)
  (actual_data : option (list R)) : result (list R) :=
  ts ← AbstractDistribution.pdf self parameters actual_data;
  _pdf_eq ts parameters.

Definition _cdf_eq (data : list R) (parameters : gmap string R) : result (list R) :=
  let loc := parameters !! "loc" in
  let scale := parameters !! "scale" in
  let shape := parameters !! "shape" in
  shape ← as_float shape;
  loc ← as_float loc;
  scale ← as_float scale;
  Ok (map (fun x => genextreme_cdf x shape loc scale) data).

Definition cdf (self : Distribution) (parameters : gmap string R)
  (actual_data : option (list R)) : result (list R) :=
  let scale := parameters !! "scale" in
  neg ← le0 scale;
  if (neg : bool) then Raise (ValueError "Scale parameter is negative")
  else
    ts ← match actual_data with
         | None =>
             match self_data self with
             | Some ts => Ok ts
             | None => Raise (AttributeError "data")
             end
         | Some ts => Ok ts
         end;
    _cdf_eq ts parameters.

Definition theoretical_estimate (parameters : gmap string R) (F : list R)
  : result (list R) :=
  let loc := parameters !! "loc" in
  let scale := parameters !! "scale" in
  let shape := parameters !! "shape" in
  neg ← le0 scale;
  if (neg : bool) then Raise (ValueError "Parameters Invalid")
  else if (Z.b2z (any F) <? 0)%Z || (Z.b2z (any F) >? 1)%Z
  then Raise (ValueError "cdf Value Invalid")
  else
    shape ← as_float shape;
    loc ← as_float loc;
    scale ← as_float scale;
    Ok (map (fun q => genextreme_ppf q shape loc scale) F).

Definition ks : M (R * R) := AbstractDistribution.ks theoretical_estimate.

Definition chisquare : M (option (R * R)) :=
  AbstractDistribution.chisquare theoretical_estimate.

Definition estimate_parameter (method : string) (ObjFunc : option objective)
  (threshold : option R) (test : bool) : M (gmap string R) :=
  let method := lower method in
  if negb (known_method method) then
    raise (ValueError (method +:+ "value should be 'mle', 'mm', 'lmoments' or 'optimization'"))
  else
    Param ← (if bool_decide (method = "mle") || bool_decide (method = "mm") then
               data ← getattr "data" self_data;
               lift (genextreme_fit data method)
             else if bool_decide (method = "lmoments") then
               data ← getattr "data" self_data;
               LMU ← lift (Lmoments_Lmom data);
               lift (Lmoments_gev LMU)
             else if bool_decide (method = "optimization") then
               match ObjFunc, threshold with
               | Some ObjFunc, Some threshold =>
                   data ← getattr "data" self_data;
                   Param ← lift (genextreme_fit data "mle");
                   p0 ← lift (getitem Param 0);
                   p1 ← lift (getitem Param 1);
                   p2 ← lift (getitem Param 2);
                   data ← getattr "data" self_data;
                   Param ← lift (so_fmin ObjFunc [threshold; p0; p1; p2] data 500 500);
                   q1 ← lift (getitem Param 1);
                   q2 ← lift (getitem Param 2);
                   q3 ← lift (getitem Param 3);
                   mret [q1; q2; q3]
               | _, _ => raise (TypeError "ObjFunc and threshold should be numeric value")
               end
             else raise (OtherError "local variable 'Param' referenced before assignment"));
    loc ← lift (getitem Param 1);
    scale ← lift (getitem Param 2);
    shape ← lift (getitem Param 0);
    let Param : gmap string R :=
      <["shape" := shape]> (<["scale" := scale]> (<["loc" := loc]> ∅)) in
    setattr (set_parameters (Some Param));;
    (if test then
       ks;;
       try_except (chisquare;; mret tt) except_ValueError
         (fun _ => print "chisquare test failed")
     else mret tt);;
    mret Param.

End methods.
End GEV.

(** ** Exponential *)

Module Exponential.
Section methods.
Context `{Externals}.

Definition __init__ (data : option (list R)) (parameters : option (gmap string R))
  : Distribution :=
  AbstractDistribution.__init__ data parameters.

Definition _pdf_eq (data : list R) (parameters : gmap string R) : result (list R) :=
  let loc := parameters !! "loc" in
  let scale := parameters !! "scale" in
  loc ← as_float loc;
  scale ← as_float scale;
  Ok (map (fun x => expon_pdf x loc scale) data).

Definition pdf (self : Distribution) (parameters : gmap string R)
  (actual_data : option (list R)) : result (list R) :=
  let scale := parameters !! "scale" in
  neg ← le0 scale;
  if (neg : bool) then Raise (ValueError "Scale parameter is negative")
  else
    ts ← AbstractDistribution.pdf self parameters actual_data;
    _pdf_eq ts parameters.

Definition _cdf_eq (data : list R) (parameters : gmap string R) : result (list R) :=
  let loc := parameters !! "loc" in
  let scale := parameters !! "scale" in
  neg ← le0 scale;
  if (neg : bool) then Raise (ValueError "Scale parameter is negative")
  else
    neg_loc ← le0 loc;
    if (neg_loc : bool) then
      Raise (ValueError "Threshold parameter should be greater than zero")
    else
      loc ← as_float loc;
      scale ← as_float scale;
      Ok (map (fun x => expon_cdf x loc scale) data).

Definition cdf (self : Distribution) (parameters : gmap string R)
  (actual_data : option (list R)) : result (list R) :=
  ts ← match actual_data with
       | None =>
           match self_data self with
           | Some ts => Ok ts
           | None => Raise (AttributeError "data")
           end
       | Some ts => Ok ts
       end;
  _cdf_eq ts parameters.

Definition theoretical_estimate (parameters : gmap string R) (cdf : list R)
  : result (list R) :=
  let loc := parameters !! "loc" in
  let scale := parameters !! "scale" in
  neg ← le0 scale;
  if (neg : bool) then Raise (ValueError "Parameters Invalid")
  else if (Z.b2z (any cdf) <? 0)%Z || (Z.b2z (any cdf) >? 1)%Z
  then Raise (ValueError "cdf Value Invalid")
  else
    loc ← as_float loc;
    scale ← as_float scale;
    Ok (map (fun q => expon_ppf q loc scale) cdf).

Definition ks : M (R * R) := AbstractDistribution.ks theoretical_estimate.

Definition chisquare : M (option (R * R)) :=
  AbstractDistribution.chisquare theoretical_estimate.

Definition estimate_parameter (method : string) (ObjFunc : option objective)
  (threshold : option R) (test : bool) : M (gmap string R) :=
  let method := lower method in
  if negb (known_method method) then
    raise (ValueError (method +:+ "value should be 'mle', 'mm', 'lmoments' or 'optimization'"))
  else
    Param ← (if bool_decide (method = "mle") || bool_decide (method = "mm") then
               data ← getattr "data" self_data;
               lift (expon_fit data method)
             else if bool_decide (method = "lmoments") then
               data ← getattr "data" self_data;
               LMU ← lift (Lmoments_Lmom data);
               lift (Lmoments_exponential LMU)
             else if bool_decide (method = "optimization") then
               match ObjFunc, threshold with
               | Some ObjFunc, Some threshold =>
                   data ← getattr "data" self_data;
                   Param ← lift (expon_fit data "mle");
                   p0 ← lift (getitem Param 0);
                   p1 ← lift (getitem Param 1);
                   data ← getattr "data" self_data;
                   Param ← lift (so_fmin ObjFunc [threshold; p0; p1] data 500 500);
                   q1 ← lift (getitem Param 1);
                   q2 ← lift (getitem Param 2);
                   mret [q1; q2]
               | _, _ => raise (TypeError "ObjFunc and threshold should be numeric value")
               end
             else raise (OtherError "local variable 'Param' referenced before assignment"));
    loc ← lift (getitem Param 0);
    scale ← lift (getitem Param 1);
    let Param : gmap string R := <["scale" := scale]> (<["loc" := loc]> ∅) in
    setattr (set_parameters (Some Param));;
    (if test then
       ks;;
       try_except (chisquare;; mret tt) except_ValueError
         (fun _ => print "chisquare test failed")
     else mret tt);;
    mret Param.

End methods.
End Exponential.

(** ** Normal *)

Module Normal.
Section methods.
Context `{Externals}.

(** This constructor takes [loc] and [scale] instead of [parameters], does
    not call the base constructor, and assigns no [parameters] attribute. *)
Definition __init__ (data : option (list R)) (loc scale : option R) : Distribution :=
  {| self_data := data;
     self_data_sorted := merge_sort Rle <$> data;
     self_cdf_Weibul := (fun d => PlottingPosition.weibul_values d false) <$> data;
     self_KStable := (fun d => 1.22 / sqrt (INR (length d))) <$> data;
     self_parameters := None;
     self_loc := Some loc;
     self_scale := Some scale;
     self_Dstatic := None;
     self_KS_Pvalue := None;
     self_chistatic := None;
     self_chi_Pvalue := None |}.

Definition pdf (self : Distribution) (parameters : gmap string R)
  (actual_data : option (list R)) : result (list R) :=
  let loc := parameters !! "loc" in
  let scale := parameters !! "scale" in
  neg ← le0 scale;
  if (neg : bool) then Raise (ValueError "Scale parameter is negative")
  else
    ts ← AbstractDistribution.pdf self parameters actual_data;
    loc ← as_float loc;
    scale ← as_float scale;
    Ok (map (fun x => norm_pdf x loc scale) ts).

Definition cdf (self : Distribution) (parameters : gmap string R)
  (actual_data : option (list R)) : result (list R) :=
  let loc := parameters !! "loc" in
  let scale := parameters !! "scale" in
  neg ← le0 scale;
  if (neg : bool) then Raise (ValueError "Scale parameter is negative")
  else
    neg_loc ← le0 loc;
    if (neg_loc : bool) then
      Raise (ValueError "Threshold parameter should be greater than zero")
    else
      ts ← match actual_data with
           | None =>
               match self_data self with
               | Some ts => Ok ts
               | None => Raise (AttributeError "data")
               end
           | Some ts => Ok ts
           end;
      loc ← as_float loc;
      scale ← as_float scale;
      Ok (map (fun x => norm_cdf x loc scale) ts).

Definition theoretical_estimate (parameters : gmap string R) (cdf : list R)
  : result (list R) :=
  let loc := parameters !! "loc" in
  let scale := parameters !! "scale" in
  neg ← le0 scale;
  if (neg : bool) then Raise (ValueError "Parameters Invalid")
  else if (Z.b2z (any cdf) <? 0)%Z || (Z.b2z (any cdf) >? 1)%Z
  then Raise (ValueError "cdf Value Invalid")
  else
    loc ← as_float loc;
    scale ← as_float scale;
    Ok (map (fun q => norm_ppf q loc scale) cdf).

(** Inherited unchanged from the base class. *)
Definition ks : M (R * R) := AbstractDistribution.ks theoretical_estimate.

Definition chisquare : M (option (R * R)) :=
  AbstractDistribution.chisquare theoretical_estimate.

Definition estimate_parameter (method : string) (ObjFunc : option objective)
  (threshold : option R) (test : bool) : M (gmap string R) :=
  let method := lower method in
  if negb (known_method method) then
    raise (ValueError (method +:+ "value should be 'mle', 'mm', 'lmoments' or 'optimization'"))
  else
    Param ← (if bool_decide (method = "mle") || bool_decide (method = "mm") then
               data ← getattr "data" self_data;
               lift (norm_fit data method)
             else if bool_decide (method = "lmoments") then
               data ← getattr "data" self_data;
               LMU ← lift (Lmoments_Lmom data);
               lift (Lmoments_normal LMU)
             else if bool_decide (method = "optimization") then
               match ObjFunc, threshold with
               | Some ObjFunc, Some threshold =>
                   data ← getattr "data" self_data;
                   Param ← lift (norm_fit data "mle");
                   p0 ← lift (getitem Param 0);
                   p1 ← lift (getitem Param 1);
                   data ← getattr "data" self_data;
                   Param ← lift (so_fmin ObjFunc [threshold; p0; p1] data 500 500);
                   q1 ← lift (getitem Param 1);
                   q2 ← lift (getitem Param 2);
                   mret [q1; q2]
               | _, _ => raise (TypeError "ObjFunc and threshold should be numeric value")
               end
             else raise (OtherError "local variable 'Param' referenced before assignment"));
    loc ← lift (getitem Param 0);
    scale ← lift (getitem Param 1);
    let Param : gmap string R := <["scale" := scale]> (<["loc" := loc]> ∅) in
    setattr (set_parameters (Some Param));;
    (if test then
       ks;;
       try_except (chisquare;; mret tt) except_ValueError
         (fun _ => print "chisquare test failed")
     else mret tt);;
    mret Param.

End methods.
End Normal.

(** ** The four families behind one interface *)

Inductive family : Type := gumbel | gev | exponential | normal.

Section dispatch.
Context `{Externals}.

Definition pdf (fam : family)
  : Distribution -> gmap string R -> option (list R) -> result (list R) :=
  match fam with
  | gumbel => Gumbel.pdf
  | gev => GEV.pdf
  | exponential => Exponential.pdf
  | normal => Normal.pdf
  end.

Definition cdf (fam : family)
  : Distribution -> gmap string R -> option (list R) -> result (list R) :=
  match fam with
  | gumbel => Gumbel.cdf
  | gev => GEV.cdf
  | exponential => Exponential.cdf
  | normal => Normal.cdf
  end.

Definition theoretical_estimate (fam : family)
  : gmap string R -> list R -> result (list R) :=
  match fam with
  | gumbel => Gumbel.theoretical_estimate
  | gev => GEV.theoretical_estimate
  | exponential => Exponential.theoretical_estimate
  | normal => Normal.theoretical_estimate
  end.

Definition ks (fam : family) : M (R * R) :=
  match fam with
  | gumbel => Gumbel.ks
  | gev => GEV.ks
  | exponential => Exponential.ks
  | normal => Normal.ks
  end.

Definition chisquare (fam : family) : M (option (R * R)) :=
  match fam with
  | gumbel => Gumbel.chisquare
  | gev => GEV.chisquare
  | exponential => Exponential.chisquare
  | normal => Normal.chisquare
  end.

Definition estimate_parameter (fam : family)
  : string -> option objective -> option R -> bool -> M (gmap string R) :=
  match fam with
  | gumbel => Gumbel.estimate_parameter
  | gev => GEV.estimate_parameter
  | exponential => Exponential.estimate_parameter
  | normal => Normal.estimate_parameter
  end.

(** The scipy fit routine of each family. *)
Definition fit (fam : family) : list R -> string -> result (list R) :=
  match fam with
  | gumbel => gumbel_r_fit
  | gev => genextreme_fit
  | exponential => expon_fit
  | normal => norm_fit
  end.

End dispatch.

(** An object built from a sample with no parameters given, as each
    class's own constructor builds it. *)
Definition unfitted (fam : family) (data : option (list R)) : Distribution :=
  match fam with
  | gumbel => Gumbel.__init__ data None
  | gev => GEV.__init__ data None
  | exponential => Exponential.__init__ data None
  | normal => Normal.__init__ data None None
  end.

(** Number of distribution parameters of a family, and the dictionary
    [estimate_parameter] builds from the fitted vector. *)
Definition arity (fam : family) : nat :=
  match fam with gev => 3%nat | _ => 2%nat end.

Definition canonical (fam : family) (Param : list R) : option (gmap string R) :=
  match fam with
  | gev =>
      loc ← Param !! 1%nat; scale ← Param !! 2%nat; shape ← Param !! 0%nat;
      Some (<["shape" := shape]> (<["scale" := scale]> (<["loc" := loc]> ∅)))
  | _ =>
      loc ← Param !! 0%nat; scale ← Param !! 1%nat;
      Some (<["scale" := scale]> (<["loc" := loc]> ∅))
  end.

(** ** A concrete stand-in for the imports *)

(** Densities and distribution functions are constant, the quantile
    functions are affine, every fit answers location 0 and scale 1 (shape 0
    first for [genextreme]), the minimiser hands back its starting point,
    and the Chi-square routine always raises.  It is used to run the
    embedding on concrete inputs. *)
Definition stub : Externals :=
  {| gumbel_r_pdf := fun _ _ _ => 0;
     gumbel_r_cdf := fun _ _ _ => 0;
     gumbel_r_fit := fun _ _ => Ok [0; 1];
     genextreme_pdf := fun _ _ _ _ => 0;
     genextreme_cdf := fun _ _ _ _ => 0;
     genextreme_ppf := fun q _ loc scale => loc + scale * (q - 1 / 2);
     genextreme_fit := fun _ _ => Ok [0; 0; 1];
     expon_pdf := fun _ _ _ => 0;
     expon_cdf := fun _ _ _ => 0;
     expon_ppf := fun q loc scale => loc + scale * (q - 1 / 2);
     expon_fit := fun _ _ => Ok [0; 1];
     norm_pdf := fun _ _ _ => 0;
     norm_cdf := fun _ _ _ => 0;
     norm_ppf := fun q loc scale => loc + scale * (q - 1 / 2);
     norm_fit := fun _ _ => Ok [0; 1];
     ks_2samp := fun _ _ => Ok (0, 1);
     stats_chisquare := fun _ _ => Raise (ValueError "observed and expected frequencies disagree");
     so_fmin := fun _ x0 _ _ _ => Ok x0;
     Lmoments_Lmom := fun data => Ok data;
     Lmoments_gumbel := fun _ => Ok [0; 1];
     Lmoments_gev := fun _ => Ok [0; 0; 1];
     Lmoments_exponential := fun _ => Ok [0; 1];
     Lmoments_normal := fun _ => Ok [0; 1];
     standardize := fun l => Ok l;
     str_float := fun _ => "<float>";
     str_exn := fun e =>
       match e with
       | ValueError m | TypeError m | AttributeError m | IndexError m | OtherError m => m
       end |}.

Definition loc_scale (loc scale : R) : gmap string R :=
  <["scale" := scale]> (<["loc" := loc]> ∅).

Definition loc_scale_shape (loc scale shape : R) : gmap string R :=
  <["shape" := shape]> (<["scale" := scale]> (<["loc" := loc]> ∅)).

(** The three evaluation operations, applied to an explicit series
    ([actual_data] for [pdf] and [cdf], the probabilities for
    [theoretical_estimate]). *)
Inductive operation : Type := op_pdf | op_cdf | op_theoretical_estimate.

Definition evaluate `{Externals} (fam : family) (op : operation) (self : Distribution)
  (parameters : gmap string R) (input : list R) : result (list R) :=
  match op with
  | op_pdf => pdf fam self parameters (Some input)
  | op_cdf => cdf fam self parameters (Some input)
  | op_theoretical_estimate => theoretical_estimate fam parameters input
  end.

(** What each family's [estimate_parameter] runs under [if test:].  Gumbel
    calls the two tests in a row; the other three wrap the second call in
    [try ... except ValueError]. *)
Definition diagnostics `{Externals} (fam : family) : M unit :=
  match fam with
  | gumbel => Gumbel.ks;; Gumbel.chisquare;; mret tt
  | gev =>
      GEV.ks;;
      try_except (GEV.chisquare;; mret tt) except_ValueError
        (fun _ => print "chisquare test failed")
  | exponential =>
      Exponential.ks;;
      try_except (Exponential.chisquare;; mret tt) except_ValueError
        (fun _ => print "chisquare test failed")
  | normal =>
      Normal.ks;;
      try_except (Normal.chisquare;; mret tt) except_ValueError
        (fun _ => print "chisquare test failed")
  end.

(** The expression inside the [try] of [chisquare], given the sample:
    [chisquare(st.standardize(Qth), st.standardize(self.data))]. *)
Definition chisquare_expression `{Externals} (Qth data : list R) : result (R * R) :=
  Qth_std ← standardize Qth;
  data_std ← standardize data;
  stats_chisquare Qth_std data_std.

(** A Gumbel object over the sample 1, 2, before and after it was given
    location 0 and scale 1. *)
Definition gumbel_unfit : process :=
  {| obj := Gumbel.__init__ (Some [1; 2]) None; stdout := [] |}.

Definition gumbel_fit : process :=
  {| obj := Gumbel.__init__ (Some [1; 2]) (Some (loc_scale 0 1)); stdout := [] |}.

(** The quantiles of that object at its own plotting positions. *)
Definition gumbel_fit_Qth : list R :=
  map (fun f => 0 - 1 * ln (- ln f)) (PlottingPosition.weibul_values [1; 2] false).

(** The closed-form interval in the words of the specification: the
    reduced variate of a probability, and the asymptotic standard error of
    the quantile at a reduced variate, for scale [s] and [n] observations. *)
Definition spec_reduced_variate (f : R) : R := - ln (- ln f).

Definition spec_standard_error (s : R) (n : nat) (y : R) : R :=
  (s / sqrt (INR n)) * sqrt (1.1087 + 0.5140 * y + 0.6079 * y ^ 2).

(** The Lmoments conversion of each family. *)
Definition lmoments_of `{Externals} (fam : family) : list R -> result (list R) :=
  match fam with
  | gumbel => Lmoments_gumbel
  | gev => Lmoments_gev
  | exponential => Lmoments_exponential
  | normal => Lmoments_normal
  end.

(** The stand-in with Gumbel's density and distribution function in closed
    form, as the comments of [Gumbel._pdf_eq] and [Gumbel._cdf_eq] give
    them: [z = (x - loc) / scale], [pdf = (1 / scale) * exp(-(z + exp(-z)))],
    [cdf = exp(-exp(-z))]. *)
Definition stub_closed_form : Externals :=
  {| gumbel_r_pdf := fun x loc scale =>
       (1 / scale) * exp (- ((x - loc) / scale + exp (- ((x - loc) / scale))));
     gumbel_r_cdf := fun x loc scale => exp (- exp (- ((x - loc) / scale)));
     gumbel_r_fit := @gumbel_r_fit stub;
     genextreme_pdf := @genextreme_pdf stub;
     genextreme_cdf := @genextreme_cdf stub;
     genextreme_ppf := @genextreme_ppf stub;
     genextreme_fit := @genextreme_fit stub;
     expon_pdf := @expon_pdf stub;
     expon_cdf := @expon_cdf stub;
     expon_ppf := @expon_ppf stub;
     expon_fit := @expon_fit stub;
     norm_pdf := @norm_pdf stub;
     norm_cdf := @norm_cdf stub;
     norm_ppf := @norm_ppf stub;
     norm_fit := @norm_fit stub;
     ks_2samp := @ks_2samp stub;
     stats_chisquare := fun _ _ => Ok (0, 1);
     so_fmin := @so_fmin stub;
     Lmoments_Lmom := @Lmoments_Lmom stub;
     Lmoments_gumbel := @Lmoments_gumbel stub;
     Lmoments_gev := @Lmoments_gev stub;
     Lmoments_exponential := @Lmoments_exponential stub;
     Lmoments_normal := @Lmoments_normal stub;
     standardize := @standardize stub;
     str_float := @str_float stub;
     str_exn := @str_exn stub |}.

(** The four attributes that the constructor derives from the sample. *)
Definition sample_view (d : Distribution)
  : option (list R) * option (list R) * option (list R) * option R :=
  (self_data d, self_data_sorted d, self_cdf_Weibul d, self_KStable d).

(** Three ways a computation can treat the object.  [keeps_sample]: it
    leaves the four sample attributes as they were.  [reads_data]: its result
    depends on the attribute [data] only and it changes nothing; [probe d] is
    the bare process whose only attribute is [data = d].  [stores_result]:
    it is such a reading followed, on success, by the assignment of the
    result to [parameters] and its return. *)
Definition keeps_sample {A} (m : M A) : Prop :=
  forall s, sample_view (obj (m s).2) = sample_view (obj s).

Definition probe (d : option (list R)) : process :=
  {| obj := {| self_data := d; self_data_sorted := None; self_cdf_Weibul := None;
               self_KStable := None; self_parameters := None; self_loc := None;
               self_scale := None; self_Dstatic := None; self_KS_Pvalue := None;
               self_chistatic := None; self_chi_Pvalue := None |};
     stdout := [] |}.

Definition reads_data {A} (m : M A) : Prop :=
  forall s, m s = ((m (probe (self_data (obj s)))).1, s).

Definition stores_result (m : M (gmap string R)) : Prop :=
  forall s,
    m s = match (m (probe (self_data (obj s)))).1 with
          | Ok P => (Ok P, {| obj := set_parameters (Some P) (obj s); stdout := stdout s |})
          | Raise e => (Raise e, s)
          end.

(** The stand-in whose Gumbel fit answers scale 0, as a fit of a constant
    sample does. *)
Definition stub_zero_scale : Externals :=
  {| gumbel_r_pdf := @gumbel_r_pdf stub;
     gumbel_r_cdf := @gumbel_r_cdf stub;
     gumbel_r_fit := fun _ _ => Ok [0; 0];
     genextreme_pdf := @genextreme_pdf stub;
     genextreme_cdf := @genextreme_cdf stub;
     genextreme_ppf := @genextreme_ppf stub;
     genextreme_fit := @genextreme_fit stub;
     expon_pdf := @expon_pdf stub;
     expon_cdf := @expon_cdf stub;
     expon_ppf := @expon_ppf stub;
     expon_fit := @expon_fit stub;
     norm_pdf := @norm_pdf stub;
     norm_cdf := @norm_cdf stub;
     norm_ppf := @norm_ppf stub;
     norm_fit := @norm_fit stub;
     ks_2samp := @ks_2samp stub;
     stats_chisquare := @stats_chisquare stub;
     so_fmin := @so_fmin stub;
     Lmoments_Lmom := @Lmoments_Lmom stub;
     Lmoments_gumbel := @Lmoments_gumbel stub;
     Lmoments_gev := @Lmoments_gev stub;
     Lmoments_exponential := @Lmoments_exponential stub;
     Lmoments_normal := @Lmoments_normal stub;
     standardize := @standardize stub;
     str_float := @str_float stub;
     str_exn := @str_exn stub |}.

(** * Properties *)

(** ** Evaluating comparisons on reals *)

Ltac decide_reals :=
  repeat first
    [ rewrite bool_decide_eq_true_2 by lra
    | rewrite bool_decide_eq_false_2 by lra ].

Lemma Rle_total : Total Rle.
Proof. intros x y. destruct (Rle_or_lt x y); [left | right]; lra. Qed.

Lemma le0_Some_pos (s : R) : 0 < s -> le0 (Some s) = Ok false.
Proof. intros Hs. unfold le0. by decide_reals. Qed.

Lemma le0_Some_nonpos (s : R) : s <= 0 -> le0 (Some s) = Ok true.
Proof. intros Hs. unfold le0. by decide_reals. Qed.

(** ** Comprehensions *)

Lemma comprehension_length {A B} (f : A -> result B) xs ys :
  comprehension f xs = Ok ys -> length ys = length xs.
Proof.
  revert ys. induction xs as [|x xs IH]; intros ys Hc; simpl in Hc.
  - by inversion Hc.
  - destruct (f x) as [y|e]; simpl in Hc; [|discriminate].
    destruct (comprehension f xs) as [ys'|e]; simpl in Hc; [|discriminate].
    inversion Hc; subst. simpl. f_equal. by apply IH.
Qed.

Lemma comprehension_lookup {A B} (f : A -> result B) xs ys i x :
  comprehension f xs = Ok ys -> xs !! i = Some x ->
  exists y, ys !! i = Some y /\ f x = Ok y.
Proof.
  revert ys i. induction xs as [|x0 xs IH]; intros ys i Hc Hi; [done|].
  simpl in Hc.
  destruct (f x0) as [y0|e] eqn:Hf; simpl in Hc; [|discriminate].
  destruct (comprehension f xs) as [ys'|e]; simpl in Hc; [|discriminate].
  inversion Hc; subst. destruct i as [|i]; simpl in *.
  - inversion Hi; subst. eauto.
  - eapply IH; eauto.
Qed.

Lemma comprehension_total {A B} (f : A -> result B) xs :
  (forall x, x ∈ xs -> exists y, f x = Ok y) ->
  exists ys, comprehension f xs = Ok ys.
Proof.
  induction xs as [|x xs IH]; intros Hf; simpl; [eauto|].
  destruct (Hf x) as [y Hy]; [left|]. rewrite Hy. simpl.
  destruct IH as [ys Hys]; [intros z Hz; apply Hf; by right|].
  rewrite Hys. simpl. eauto.
Qed.

(** The first element on which the body raises decides the outcome. *)
Lemma comprehension_raise {A B} (f : A -> result B) xs i x e :
  xs !! i = Some x -> f x = Raise e ->
  (forall j z, (j < i)%nat -> xs !! j = Some z -> exists y, f z = Ok y) ->
  comprehension f xs = Raise e.
Proof.
  revert i. induction xs as [|x0 xs IH]; intros i Hi Hx Hbefore; [done|].
  destruct i as [|i]; simpl in *.
  - inversion Hi; subst. by rewrite Hx.
  - destruct (Hbefore 0%nat x0) as [y0 Hy0]; [lia|done|].
    rewrite Hy0. simpl.
    rewrite (IH i); [done|done|done|].
    intros j z Hj Hz. apply (Hbefore (S j) z); [lia|done].
Qed.

(** ** Plotting positions *)

Lemma rank_probabilities_length n :
  length (PlottingPosition.rank_probabilities n) = n.
Proof. unfold PlottingPosition.rank_probabilities. by rewrite length_map, length_seq. Qed.

Lemma rank_probabilities_lookup n i :
  (1 <= i <= n)%nat ->
  PlottingPosition.rank_probabilities n !! (i - 1)%nat = Some (INR i / INR (n + 1)).
Proof.
  intros Hi. unfold PlottingPosition.rank_probabilities.
  rewrite list_lookup_fmap, lookup_seq_lt by lia.
  replace (1 + (i - 1))%nat with i by lia. reflexivity.
Qed.

Lemma rank_probability_below_one n i :
  (1 <= i <= n)%nat -> 0 < INR i / INR (n + 1) < 1.
Proof.
  intros Hi.
  assert (0 < INR i) by (apply lt_0_INR; lia).
  assert (INR i < INR (n + 1)) by (apply lt_INR; lia).
  split.
  - apply Rdiv_lt_0_compat; lra.
  - apply Rmult_lt_reg_r with (INR (n + 1)); [lra|].
    unfold Rdiv. rewrite Rmult_assoc, Rinv_l by lra. lra.
Qed.

(** What [weibul] does to the store: one new object, the sorted copy. *)
Lemma weibul_run (h : PlottingPosition.store) data sample flag :
  h !! data = Some sample ->
  PlottingPosition.weibul data flag h
  = Some (PlottingPosition.weibul_values sample flag,
          <[fresh (dom h) := merge_sort Rle sample]> h).
Proof.
  intros Hd. unfold PlottingPosition.weibul, PlottingPosition.np_array,
    PlottingPosition.ndarray_sort, PlottingPosition.weibul_values.
  rewrite Hd. simpl. rewrite lookup_insert_eq. simpl.
  rewrite lookup_insert_eq. simpl. rewrite insert_insert_eq.
  assert (length (merge_sort Rle sample) = length sample) as ->
    by (apply Permutation_length, merge_sort_Permutation).
  by destruct flag.
Qed.

Lemma fresh_not_allocated (h : PlottingPosition.store) : h !! fresh (dom h) = None.
Proof. apply not_elem_of_dom, is_fresh. Qed.

(** C5: for a non-empty sample of length n, [weibul] without the
    return-period flag returns exactly n values, the i-th (counting from 1)
    being i/(n+1), so none of them equals 1; with the flag it returns the n
    values 1/(1 - i/(n+1)). *)
Theorem C5_weibul_positions (h : PlottingPosition.store) (data : positive)
  (sample : list R) :
  h !! data = Some sample -> sample <> [] ->
  (exists F h', PlottingPosition.weibul data false h = Some (F, h')
     /\ length F = length sample
     /\ (forall i, (1 <= i <= length sample)%nat ->
           F !! (i - 1)%nat = Some (INR i / INR (length sample + 1)))
     /\ Forall (fun p => p <> 1) F)
  /\ (exists T h', PlottingPosition.weibul data true h = Some (T, h')
     /\ length T = length sample
     /\ (forall i, (1 <= i <= length sample)%nat ->
           T !! (i - 1)%nat = Some (1 / (1 - INR i / INR (length sample + 1))))).
Proof.
  intros Hd _. split.
  - eexists _, _. split; [by apply weibul_run|].
    change (PlottingPosition.weibul_values sample false)
      with (PlottingPosition.rank_probabilities (length sample)).
    split; [apply rank_probabilities_length|].
    split; [apply rank_probabilities_lookup|].
    apply Forall_lookup. intros k p Hk.
    assert (k < length sample)%nat as Hlt.
    { apply lookup_lt_Some in Hk. by rewrite rank_probabilities_length in Hk. }
    pose proof (rank_probabilities_lookup (length sample) (S k)) as Hr.
    replace (S k - 1)%nat with k in Hr by lia.
    rewrite Hr in Hk by lia.
    assert (p = INR (S k) / INR (length sample + 1)) as -> by congruence.
    pose proof (rank_probability_below_one (length sample) (S k) ltac:(lia)). lra.
  - eexists _, _. split; [by apply weibul_run|].
    change (PlottingPosition.weibul_values sample true)
      with (PlottingPosition.return_period
              (PlottingPosition.rank_probabilities (length sample))).
    unfold PlottingPosition.return_period.
    split; [by rewrite length_map, rank_probabilities_length|].
    intros i Hi.
    by rewrite list_lookup_fmap, rank_probabilities_lookup.
Qed.

Lemma C5_weibul_positions_witness :
  ({[1%positive := [3; 1; 2]]} : PlottingPosition.store) !! 1%positive = Some [3; 1; 2]
  /\ [3; 1; 2] <> ([] : list R)
  /\ exists F h',
       PlottingPosition.weibul 1%positive false {[1%positive := [3; 1; 2]]} = Some (F, h')
       /\ length F = 3%nat
       /\ F !! 0%nat = Some (INR 1 / INR 4).
Proof.
  split; [apply lookup_singleton_eq|]. split; [discriminate|].
  destruct (C5_weibul_positions {[1%positive := [3; 1; 2]]} 1%positive [3; 1; 2])
    as [(F & h' & Hrun & Hlen & Hval & _) _];
    [apply lookup_singleton_eq | discriminate |].
  exists F, h'. split; [exact Hrun|]. split; [exact Hlen|].
  apply (Hval 1%nat). simpl. lia.
Defined.

(** The fixture of the specification: three observations give
    0.25, 0.5, 0.75. *)
Example weibul_three_observations :
  PlottingPosition.weibul_values [3; 1; 2] false = [0.25; 0.5; 0.75].
Proof.
  unfold PlottingPosition.weibul_values, PlottingPosition.rank_probabilities. simpl.
  repeat f_equal; lra.
Qed.

(** C9, as stated, fails: after [weibul] has returned, the array that was
    passed still holds 3, 1, 2, which is not ascending. *)
Lemma C9_argument_not_sorted :
  exists v h',
    PlottingPosition.weibul 1%positive false {[1%positive := [3; 1; 2]]} = Some (v, h')
    /\ h' !! 1%positive = Some [3; 1; 2]
    /\ ~ Sorted Rle [3; 1; 2].
Proof.
  eexists _, _. split; [apply weibul_run, lookup_singleton_eq|]. split.
  - rewrite lookup_insert_ne; [apply lookup_singleton_eq|].
    intros Heq.
    pose proof (fresh_not_allocated ({[1%positive := [3; 1; 2]]} : PlottingPosition.store)) as Hf.
    rewrite Heq, lookup_singleton_eq in Hf. discriminate.
  - intros Hs. inversion Hs as [|? ? _ Hhd]; subst.
    inversion Hhd; subst. lra.
Qed.

(** C9, amended: [weibul] leaves the array it was given as it was.  It
    allocates one new array, a copy of the sample, and the sort reorders
    that copy; nothing else in the store changes. *)
Theorem C9_weibul_sorts_a_copy (h : PlottingPosition.store) (data : positive)
  (sample : list R) (flag : bool) :
  h !! data = Some sample ->
  exists v copy h',
    PlottingPosition.weibul data flag h = Some (v, h')
    /\ h' !! data = Some sample
    /\ h !! copy = None
    /\ h' = <[copy := merge_sort Rle sample]> h
    /\ Sorted Rle (merge_sort Rle sample)
    /\ merge_sort Rle sample ≡ₚ sample.
Proof.
  intros Hd. eexists _, (fresh (dom h)), _.
  split; [by apply weibul_run|].
  pose proof (fresh_not_allocated h) as Hf.
  split.
  - rewrite lookup_insert_ne; [done|]. intros Heq. rewrite Heq in Hf. congruence.
  - split; [done|]. split; [done|]. split.
    + apply (@Sorted_merge_sort _ Rle _ Rle_total).
    + apply merge_sort_Permutation.
Qed.

Lemma C9_weibul_sorts_a_copy_witness :
  ({[1%positive := [3; 1; 2]]} : PlottingPosition.store) !! 1%positive = Some [3; 1; 2]
  /\ exists v copy h',
       PlottingPosition.weibul 1%positive false {[1%positive := [3; 1; 2]]} = Some (v, h')
       /\ h' !! 1%positive = Some [3; 1; 2]
       /\ ({[1%positive := [3; 1; 2]]} : PlottingPosition.store) !! copy = None
       /\ h' = <[copy := merge_sort Rle [3; 1; 2]]> {[1%positive := [3; 1; 2]]}
       /\ Sorted Rle (merge_sort Rle [3; 1; 2])
       /\ merge_sort Rle [3; 1; 2] ≡ₚ [3; 1; 2].
Proof.
  split; [apply lookup_singleton_eq|].
  apply (C9_weibul_sorts_a_copy {[1%positive := [3; 1; 2]]} 1%positive [3; 1; 2] false).
  apply lookup_singleton_eq.
Defined.

(** ** Validation of the parameters *)

Section validation.
Context `{Externals}.

Lemma loc_scale_lookup (l s : R) :
  loc_scale l s !! "loc" = Some l /\ loc_scale l s !! "scale" = Some s.
Proof. by split. Qed.

Lemma loc_scale_shape_lookup (l s c : R) :
  loc_scale_shape l s c !! "loc" = Some l
  /\ loc_scale_shape l s c !! "scale" = Some s
  /\ loc_scale_shape l s c !! "shape" = Some c.
Proof. by repeat split. Qed.

(** Every operation except [GEV.pdf] has the scale guard: with
    [scale <= 0] it raises [ValueError], whatever the other entries of the
    dictionary are. *)
Lemma scale_guard (fam : family) (op : operation) (self : Distribution)
  (parameters : gmap string R) (input : list R) (s : R) :
  parameters !! "scale" = Some s -> s <= 0 ->
  (fam, op) <> (gev, op_pdf) ->
  is_ValueError (evaluate fam op self parameters input).
Proof.
  intros Hs Hneg Hne.
  destruct fam, op; try congruence; simpl;
    unfold Gumbel.pdf, Gumbel._pdf_eq, Gumbel.cdf, Gumbel._cdf_eq,
      Gumbel.theoretical_estimate, GEV.cdf, GEV.theoretical_estimate,
      Exponential.pdf, Exponential.cdf, Exponential._cdf_eq,
      Exponential.theoretical_estimate, Normal.pdf, Normal.cdf,
      Normal.theoretical_estimate;
    simpl; rewrite Hs, (le0_Some_nonpos s Hneg); exact I.
Qed.

(** Without an explicit series, and on an object that has a sample, the
    operations that read the sample before the guard still end in
    [ValueError]. *)
Lemma scale_guard_on_sample (fam : family) (self : Distribution)
  (parameters : gmap string R) (sample : list R) (s : R) :
  self_data self = Some sample ->
  parameters !! "scale" = Some s -> s <= 0 ->
  (fam <> gev -> is_ValueError (pdf fam self parameters None))
  /\ is_ValueError (cdf fam self parameters None).
Proof.
  intros Hd Hs Hneg. split; [intros Hne|];
    destruct fam; try congruence; simpl;
    unfold Gumbel.pdf, Gumbel._pdf_eq, Gumbel.cdf, Gumbel._cdf_eq, GEV.cdf,
      Exponential.pdf, Exponential.cdf, Exponential._cdf_eq, Normal.pdf, Normal.cdf,
      AbstractDistribution.pdf;
    simpl; rewrite ?Hd; simpl; rewrite Hs, (le0_Some_nonpos s Hneg); exact I.
Qed.

(** C1 fails on [GEV.pdf]: neither [GEV.pdf] nor [GEV._pdf_eq] looks at
    the scale, so with scale -1 the call does not raise and hands back what
    [genextreme.pdf] computes.  On the same object and parameters [GEV.cdf]
    and [GEV.theoretical_estimate] raise [ValueError], and so does the
    [pdf] of Gumbel. *)
Theorem C1_GEV_pdf_has_no_scale_guard (sample : list R) :
  pdf gev (GEV.__init__ (Some sample) None) (loc_scale_shape 0 (-1) 0) None
  = Ok (map (fun x => genextreme_pdf x 0 0 (-1)) sample)
  /\ is_ValueError
       (cdf gev (GEV.__init__ (Some sample) None) (loc_scale_shape 0 (-1) 0) None)
  /\ is_ValueError (theoretical_estimate gev (loc_scale_shape 0 (-1) 0) sample)
  /\ is_ValueError
       (pdf gumbel (Gumbel.__init__ (Some sample) None) (loc_scale_shape 0 (-1) 0) None).
Proof.
  assert (-1 <= 0) as Hneg by lra.
  destruct (loc_scale_shape_lookup 0 (-1) 0) as (_ & Hs & _).
  split; [reflexivity|]. split.
  - by apply (scale_guard_on_sample gev _ _ sample (-1)).
  - split.
    + by apply (scale_guard gev op_theoretical_estimate
                  (GEV.__init__ None None) _ sample (-1)).
    + by apply (scale_guard_on_sample gumbel _ _ sample (-1)).
Qed.

(** The range test on the probabilities.  [any] yields a [bool], so
    [any(F) > 1] and [any(F) < 0] are never true and [any(F) <= 0] holds
    exactly when no entry is non-zero. *)
Lemma range_test_gumbel (F : list R) :
  (Z.b2z (any F) <=? 0)%Z || (Z.b2z (any F) >? 1)%Z = negb (any F).
Proof. by destruct (any F). Qed.

Lemma range_test_others (F : list R) :
  (Z.b2z (any F) <? 0)%Z || (Z.b2z (any F) >? 1)%Z = false.
Proof. by destruct (any F). Qed.

Lemma Gumbel_theoretical_estimate_ok (parameters : gmap string R) (F : list R) (l s : R) :
  parameters !! "loc" = Some l -> parameters !! "scale" = Some s -> 0 < s ->
  any F = true ->
  Gumbel.theoretical_estimate parameters F
  = Ok (map (fun f => l - s * ln (- ln f)) F).
Proof.
  intros Hl Hs Hpos Hany. unfold Gumbel.theoretical_estimate.
  rewrite Hl, Hs, (le0_Some_pos s Hpos). simpl.
  by rewrite range_test_gumbel, Hany.
Qed.

Lemma Gumbel_theoretical_estimate_all_zero (parameters : gmap string R) (F : list R) (s : R) :
  parameters !! "scale" = Some s -> 0 < s -> any F = false ->
  Gumbel.theoretical_estimate parameters F = Raise (ValueError "cdf Value Invalid").
Proof.
  intros Hs Hpos Hany. unfold Gumbel.theoretical_estimate.
  rewrite Hs, (le0_Some_pos s Hpos). simpl.
  by rewrite range_test_gumbel, Hany.
Qed.

(** With a positive scale and a complete dictionary, the probabilities are
    never rejected by GEV, Exponential and Normal, and by Gumbel only when
    all of them are zero. *)
Lemma theoretical_estimate_accepts (fam : family) (parameters : gmap string R)
  (F : list R) (l s c : R) :
  parameters !! "loc" = Some l -> parameters !! "scale" = Some s ->
  parameters !! "shape" = Some c -> 0 < s ->
  any F = true ->
  exists Q, theoretical_estimate fam parameters F = Ok Q /\ length Q = length F.
Proof.
  intros Hl Hs Hc Hpos Hany.
  destruct fam; simpl;
    unfold Gumbel.theoretical_estimate, GEV.theoretical_estimate,
      Exponential.theoretical_estimate, Normal.theoretical_estimate;
    rewrite Hl, Hs, ?Hc, (le0_Some_pos s Hpos); simpl;
    rewrite ?range_test_gumbel, ?range_test_others, ?Hany; simpl;
    eexists; (split; [reflexivity|]); by rewrite length_map.
Qed.

Lemma any_two : any [2] = true.
Proof. unfold any, truthy. simpl. by decide_reals. Qed.

(** C2 fails in every family: the probability 2 lies outside (0, 1], the
    scale is 1, and [theoretical_estimate] returns an array instead of
    raising. *)
Theorem C2_probability_two_is_accepted (fam : family) :
  ~ (0 < 2 <= 1)
  /\ exists Q, theoretical_estimate fam (loc_scale_shape 0 1 0) [2] = Ok Q
             /\ length Q = 1%nat.
Proof.
  split; [lra|].
  destruct (loc_scale_shape_lookup 0 1 0) as (Hl & Hs & Hc).
  apply (theoretical_estimate_accepts fam _ [2] 0 1 0 Hl Hs Hc); [lra|apply any_two].
Qed.

(** C8: with [loc <= 0] and a positive scale, the [cdf] of Exponential and
    of Normal raise [ValueError], while their [pdf] return the densities. *)
Theorem C8_loc_guard_in_cdf_only (self : Distribution) (parameters : gmap string R)
  (actual_data : option (list R)) (ts : list R) (l s : R) :
  parameters !! "loc" = Some l -> parameters !! "scale" = Some s ->
  l <= 0 -> 0 < s ->
  AbstractDistribution.pdf self parameters actual_data = Ok ts ->
  cdf exponential self parameters actual_data
    = Raise (ValueError "Threshold parameter should be greater than zero")
  /\ pdf exponential self parameters actual_data
    = Ok (map (fun x => expon_pdf x l s) ts)
  /\ cdf normal self parameters actual_data
    = Raise (ValueError "Threshold parameter should be greater than zero")
  /\ pdf normal self parameters actual_data
    = Ok (map (fun x => norm_pdf x l s) ts).
Proof.
  intros Hl Hs Hneg Hpos Hts. simpl.
  unfold Exponential.cdf, Exponential._cdf_eq, Exponential.pdf, Exponential._pdf_eq,
    Normal.cdf, Normal.pdf.
  rewrite Hts. unfold AbstractDistribution.pdf in Hts.
  repeat split.
  - destruct actual_data as [a|]; [|destruct (self_data self); [|discriminate]]; simpl;
      by rewrite Hl, Hs, (le0_Some_pos s Hpos), (le0_Some_nonpos l Hneg).
  - by rewrite Hl, Hs, (le0_Some_pos s Hpos).
  - by rewrite Hl, Hs, (le0_Some_pos s Hpos), (le0_Some_nonpos l Hneg).
  - by rewrite Hl, Hs, (le0_Some_pos s Hpos).
Qed.

End validation.

Lemma C8_loc_guard_in_cdf_only_witness :
  loc_scale (-1) 1 !! "loc" = Some (-1)
  /\ loc_scale (-1) 1 !! "scale" = Some 1
  /\ -1 <= 0 /\ 0 < 1
  /\ AbstractDistribution.pdf (Exponential.__init__ (Some [1; 2]) None)
       (loc_scale (-1) 1) None = Ok [1; 2]
  /\ @cdf stub exponential (Exponential.__init__ (Some [1; 2]) None) (loc_scale (-1) 1) None
     = Raise (ValueError "Threshold parameter should be greater than zero")
  /\ @pdf stub exponential (Exponential.__init__ (Some [1; 2]) None) (loc_scale (-1) 1) None
     = Ok [0; 0].
Proof.
  assert (-1 <= 0) as Hneg by lra.
  assert (0 < 1) as Hpos by lra.
  destruct (@C8_loc_guard_in_cdf_only stub
              (Exponential.__init__ (Some [1; 2]) None) (loc_scale (-1) 1) None
              [1; 2] (-1) 1 eq_refl eq_refl Hneg Hpos eq_refl)
    as (Hcdf & Hpdf & _).
  repeat split; try assumption; reflexivity.
Defined.

(** ** Goodness of fit before any fit *)

Section not_fit.
Context `{Externals}.

(** For Gumbel, GEV and Exponential an object built without parameters
    holds [parameters = None]; both tests raise [ValueError] and change
    nothing. *)
Lemma tests_before_fit (fam : family) (data : option (list R)) (out : list string) :
  fam <> normal ->
  is_ValueError (ks fam {| obj := unfitted fam data; stdout := out |}).1
  /\ (ks fam {| obj := unfitted fam data; stdout := out |}).2
     = {| obj := unfitted fam data; stdout := out |}
  /\ is_ValueError (chisquare fam {| obj := unfitted fam data; stdout := out |}).1
  /\ (chisquare fam {| obj := unfitted fam data; stdout := out |}).2
     = {| obj := unfitted fam data; stdout := out |}.
Proof. intros Hne. destruct fam; try congruence; by repeat split. Qed.

(** C6 fails for Normal: its constructor never assigns [parameters], so
    reading [self.parameters] in [ks] and [chisquare] raises
    [AttributeError] before the [is None] test can raise [ValueError].  The
    object is left as it was. *)
Theorem C6_Normal_tests_raise_AttributeError (data : option (list R)) (out : list string) :
  ks normal {| obj := unfitted normal data; stdout := out |}
  = (Raise (AttributeError "parameters"), {| obj := unfitted normal data; stdout := out |})
  /\ chisquare normal {| obj := unfitted normal data; stdout := out |}
  = (Raise (AttributeError "parameters"), {| obj := unfitted normal data; stdout := out |}).
Proof. by split. Qed.

End not_fit.

(** ** Running the two tests *)

Ltac run_M :=
  unfold mbind, M_bind, mret, M_ret, getattr, setattr, print, lift, raise,
    try_except in *;
  simpl in *.

Section goodness_of_fit.
Context `{Externals}.

Lemma ks_dispatch (fam : family) :
  ks fam = AbstractDistribution.ks (theoretical_estimate fam).
Proof. by destruct fam. Qed.

Lemma chisquare_dispatch (fam : family) :
  chisquare fam = AbstractDistribution.chisquare (theoretical_estimate fam).
Proof. by destruct fam. Qed.

(** A run of [ks] that returns has found parameters and plotting positions
    that [theoretical_estimate] accepts, and has changed neither. *)
Lemma ks_returns (fam : family) (s s' : process) (t : R * R) :
  ks fam s = (Ok t, s') ->
  exists p cdfW Qth,
    self_parameters (obj s) = Some (Some p)
    /\ self_cdf_Weibul (obj s) = Some cdfW
    /\ theoretical_estimate fam p cdfW = Ok Qth
    /\ self_parameters (obj s') = Some (Some p)
    /\ self_cdf_Weibul (obj s') = Some cdfW
    /\ self_data (obj s') = self_data (obj s).
Proof.
  rewrite ks_dispatch. unfold AbstractDistribution.ks. intros Hrun. run_M.
  destruct (self_parameters (obj s)) as [[p|]|] eqn:Hp; simpl in *; try discriminate.
  destruct (self_cdf_Weibul (obj s)) as [cdfW|] eqn:Hw; simpl in *; try discriminate.
  destruct (theoretical_estimate fam p cdfW) as [Qth|e] eqn:Hq; simpl in *;
    try discriminate.
  destruct (self_data (obj s)) as [data|] eqn:Hd; simpl in *; try discriminate.
  destruct (ks_2samp data Qth) as [t'|e]; simpl in *; try discriminate.
  destruct (self_KStable (obj s)) as [K|]; simpl in *; try discriminate.
  exists p, cdfW, Qth.
  case_bool_decide; simpl in *; inversion Hrun; subst; simpl; by rewrite ?Hp, ?Hw, ?Hd.
Qed.

(** Once the quantiles are available, [chisquare] cannot raise: whatever
    happens inside the [try] is caught. *)
Lemma chisquare_returns (fam : family) (s : process) p cdfW Qth :
  self_parameters (obj s) = Some (Some p) ->
  self_cdf_Weibul (obj s) = Some cdfW ->
  theoretical_estimate fam p cdfW = Ok Qth ->
  exists r s', chisquare fam s = (Ok r, s').
Proof.
  intros Hp Hw Hq. rewrite chisquare_dispatch. unfold AbstractDistribution.chisquare.
  run_M. rewrite Hp. simpl. rewrite Hw. simpl. rewrite Hq. simpl.
  destruct (standardize Qth) as [Qth_std|e1]; simpl; [|eauto].
  destruct (self_data (obj s)) as [data|]; simpl; [|eauto].
  destruct (standardize data) as [data_std|e2]; simpl; [|eauto].
  destruct (stats_chisquare Qth_std data_std); simpl; eauto.
Qed.

(** A failure of the test expression is printed and turned into [None];
    the object is not touched. *)
Lemma chisquare_caught (fam : family) (s : process) p cdfW Qth data e :
  self_parameters (obj s) = Some (Some p) ->
  self_cdf_Weibul (obj s) = Some cdfW ->
  theoretical_estimate fam p cdfW = Ok Qth ->
  self_data (obj s) = Some data ->
  chisquare_expression Qth data = Raise e ->
  chisquare fam s = (Ok None, {| obj := obj s; stdout := stdout s ++ [str_exn e] |}).
Proof.
  intros Hp Hw Hq Hd He. rewrite chisquare_dispatch.
  unfold AbstractDistribution.chisquare, chisquare_expression in *.
  run_M. rewrite Hp. simpl. rewrite Hw. simpl. rewrite Hq. simpl.
  destruct (standardize Qth) as [a|e1]; simpl in *; [|by inversion He].
  rewrite Hd. simpl.
  destruct (standardize data) as [b|e2]; simpl in *; [|by inversion He].
  rewrite He. simpl. by destruct s.
Qed.

(** The block under [if test:] returns whenever its [ks] call does. *)
Lemma diagnostics_after_ks (fam : family) (s s1 : process) (t : R * R) :
  ks fam s = (Ok t, s1) ->
  exists s2, diagnostics fam s = (Ok tt, s2).
Proof.
  intros Hks.
  destruct (ks_returns fam s s1 t Hks) as (p & cdfW & Qth & _ & _ & Hq & Hp & Hw & _).
  destruct (chisquare_returns fam s1 p cdfW Qth Hp Hw Hq) as (r & s2 & Hchi).
  destruct fam; simpl in *; unfold mbind, M_bind, try_except;
    rewrite Hks; simpl; rewrite Hchi; simpl; eauto.
Qed.

End goodness_of_fit.

(** ** The estimation dispatcher *)

Section estimation.
Context `{Externals}.

(** The [test] flag only adds the diagnostics after the parameters have
    been assigned: a run with the flag is the run without it followed by the
    [if test:] block. *)
Lemma estimate_parameter_then_tests (fam : family) (method : string)
  (ObjFunc : option objective) (threshold : option R) (s : process) :
  match estimate_parameter fam method ObjFunc threshold false s with
  | (Ok P, s1) =>
      self_parameters (obj s1) = Some (Some P)
      /\ estimate_parameter fam method ObjFunc threshold true s
         = match diagnostics fam s1 with
           | (Ok _, s2) => (Ok P, s2)
           | (Raise e, s2) => (Raise e, s2)
           end
  | (Raise e, s1) =>
      estimate_parameter fam method ObjFunc threshold true s = (Raise e, s1)
  end.
Proof.
  destruct fam; simpl;
    unfold Gumbel.estimate_parameter, GEV.estimate_parameter,
      Exponential.estimate_parameter, Normal.estimate_parameter;
    run_M;
    repeat (case_match; simplify_eq/=; try done).
Qed.

(** The diagnostics read the parameters and never assign them. *)
Lemma diagnostics_keep_parameters (fam : family) (s s' : process) (r : result unit) :
  diagnostics fam s = (r, s') ->
  self_parameters (obj s') = self_parameters (obj s).
Proof.
  destruct fam; simpl;
    unfold Gumbel.ks, Gumbel.chisquare, GEV.ks, GEV.chisquare, Exponential.ks,
      Exponential.chisquare, Normal.ks, Normal.chisquare,
      AbstractDistribution.ks, AbstractDistribution.chisquare;
    run_M; intros Hrun;
    repeat (case_match; simplify_eq/=; try done).
Qed.

(** C3: with method "optimization" (in any letter case), a missing
    objective or threshold raises [TypeError] and changes nothing.
    Otherwise the family is first fitted by "mle", the simplex minimiser is
    started from [threshold :: mle] with [maxiter = maxfun = 500], and the
    dictionary that is stored and returned is built from the minimiser's
    result without its first component, the threshold. *)
Theorem C3_optimization_method (fam : family) (method : string) (s : process) :
  lower method = "optimization" ->
  (forall ObjFunc threshold test,
      ObjFunc = None \/ threshold = None ->
      exists msg,
        estimate_parameter fam method ObjFunc threshold test s
        = (Raise (TypeError msg), s))
  /\ (forall f c data mle res,
        self_data (obj s) = Some data ->
        fit fam data "mle" = Ok mle -> length mle = arity fam ->
        so_fmin f (c :: mle) data 500 500 = Ok res ->
        length res = S (arity fam) ->
        exists P,
          canonical fam (tail res) = Some P
          /\ estimate_parameter fam method (Some f) (Some c) false s
             = (Ok P, {| obj := set_parameters (Some P) (obj s); stdout := stdout s |})
          /\ (forall r s',
                estimate_parameter fam method (Some f) (Some c) true s = (r, s') ->
                self_parameters (obj s') = Some (Some P)
                /\ (forall P', r = Ok P' -> P' = P))).
Proof.
  intros Hm. split.
  - intros ObjFunc threshold test Hmissing.
    destruct fam; simpl;
      unfold Gumbel.estimate_parameter, GEV.estimate_parameter,
        Exponential.estimate_parameter, Normal.estimate_parameter;
      rewrite Hm; run_M;
      destruct Hmissing as [-> | ->]; try destruct ObjFunc; simpl; eauto.
  - intros f c data mle res Hd Hfit Hlen Hmin Hres.
    assert (exists P,
      canonical fam (tail res) = Some P
      /\ estimate_parameter fam method (Some f) (Some c) false s
         = (Ok P, {| obj := set_parameters (Some P) (obj s); stdout := stdout s |}))
      as (P & Hcan & Hrun).
    { destruct fam; simpl in *;
        unfold Gumbel.estimate_parameter, GEV.estimate_parameter,
          Exponential.estimate_parameter, Normal.estimate_parameter;
        rewrite Hm; run_M; rewrite Hd; simpl; rewrite Hfit; simpl;
        repeat (destruct mle as [|? mle]; simpl in Hlen; try lia);
        simpl; rewrite Hd; simpl; rewrite Hmin; simpl;
        repeat (destruct res as [|? res]; simpl in Hres; try lia);
        simpl; eauto. }
    exists P. split; [done|]. split; [done|].
    intros r s' Htest.
    pose proof (estimate_parameter_then_tests fam method (Some f) (Some c) s) as Hsplit.
    rewrite Hrun in Hsplit. destruct Hsplit as [_ Hsplit].
    rewrite Htest in Hsplit.
    destruct (diagnostics fam {| obj := set_parameters (Some P) (obj s); stdout := stdout s |})
      as [r2 s2] eqn:Hdiag.
    apply diagnostics_keep_parameters in Hdiag. simpl in Hdiag.
    destruct r2; inversion Hsplit; subst; (split; [done|]); intros P' HP'; congruence.
Qed.

End estimation.

Lemma C3_optimization_method_witness :
  lower "Optimization" = "optimization"
  /\ (exists msg,
        @estimate_parameter stub gumbel "Optimization" None (Some 5) true
          {| obj := Gumbel.__init__ (Some [1; 2]) None; stdout := [] |}
        = (Raise (TypeError msg),
           {| obj := Gumbel.__init__ (Some [1; 2]) None; stdout := [] |}))
  /\ (exists P,
        canonical gumbel (tail [5; 0; 1]) = Some P
        /\ @estimate_parameter stub gumbel "Optimization" (Some (fun _ _ => Ok 0)) (Some 5) false
             {| obj := Gumbel.__init__ (Some [1; 2]) None; stdout := [] |}
           = (Ok P, {| obj := set_parameters (Some P) (Gumbel.__init__ (Some [1; 2]) None);
                       stdout := [] |})).
Proof.
  destruct (@C3_optimization_method stub gumbel "Optimization"
              {| obj := Gumbel.__init__ (Some [1; 2]) None; stdout := [] |} eq_refl)
    as [Hmissing Hrun].
  split; [reflexivity|]. split.
  - apply Hmissing. by left.
  - destruct (Hrun (fun _ _ => Ok 0) 5 [1; 2] [0; 1] [5; 0; 1]
                eq_refl eq_refl eq_refl eq_refl eq_refl) as (P & Hcan & Hok & _).
    exists P. by split.
Defined.

(** ** Chi-square failures *)

Lemma any_weibul_values (sample : list R) :
  sample <> [] -> any (PlottingPosition.weibul_values sample false) = true.
Proof.
  intros Hne. destruct sample as [|x sample]; [done|].
  change (PlottingPosition.weibul_values (x :: sample) false)
    with (PlottingPosition.rank_probabilities (S (length sample))).
  unfold PlottingPosition.rank_probabilities.
  change (seq 1 (S (length sample))) with (1%nat :: seq 2 (length sample)).
  rewrite map_cons. unfold any. cbn [existsb].
  apply orb_true_iff. left. unfold truthy.
  pose proof (rank_probability_below_one (S (length sample)) 1 ltac:(lia)) as Hpos.
  rewrite bool_decide_eq_false_2; [done|]. intros Hzero.
  rewrite Hzero in Hpos. lra.
Qed.

Section chisquare_failure.
Context `{Externals}.

Lemma ks_runs (fam : family) (s : process) p cdfW Qth data t K :
  self_parameters (obj s) = Some (Some p) ->
  self_cdf_Weibul (obj s) = Some cdfW ->
  theoretical_estimate fam p cdfW = Ok Qth ->
  self_data (obj s) = Some data ->
  ks_2samp data Qth = Ok t ->
  self_KStable (obj s) = Some K ->
  exists s', ks fam s = (Ok t, s').
Proof.
  intros Hp Hw Hq Hd Ht HK. rewrite ks_dispatch. unfold AbstractDistribution.ks.
  run_M. rewrite Hp. simpl. rewrite Hw. simpl. rewrite Hq. simpl. rewrite Hd. simpl.
  rewrite Ht. simpl. rewrite HK. simpl. case_bool_decide; simpl; eauto.
Qed.

(** C7, amended: in every family, when the test expression inside
    [chisquare] raises, the exception is printed, [None] is returned and the
    object keeps its state; and [estimate_parameter] with the test flag
    returns the fitted parameters whenever the fit itself and the [ks] call
    succeed, so nothing that happens in the Chi-square test can make it
    fail.  The handler sits in the base class and serves all four
    families. *)
Theorem C7_chisquare_failure_is_caught (fam : family) (s : process)
  (p : gmap string R) (cdfW Qth data : list R) (e : exn) :
  self_parameters (obj s) = Some (Some p) ->
  self_cdf_Weibul (obj s) = Some cdfW ->
  self_data (obj s) = Some data ->
  theoretical_estimate fam p cdfW = Ok Qth ->
  chisquare_expression Qth data = Raise e ->
  chisquare fam s = (Ok None, {| obj := obj s; stdout := stdout s ++ [str_exn e] |})
  /\ (forall method ObjFunc threshold s0 P s1 t s2,
        estimate_parameter fam method ObjFunc threshold false s0 = (Ok P, s1) ->
        ks fam s1 = (Ok t, s2) ->
        exists s3, estimate_parameter fam method ObjFunc threshold true s0 = (Ok P, s3)).
Proof.
  intros Hp Hw Hd Hq He. split; [by eapply chisquare_caught|].
  intros method ObjFunc threshold s0 P s1 t s2 Hfit Hks.
  pose proof (estimate_parameter_then_tests fam method ObjFunc threshold s0) as Hsplit.
  rewrite Hfit in Hsplit. destruct Hsplit as [_ ->].
  destruct (diagnostics_after_ks fam s1 s2 t Hks) as [s3 ->]. eauto.
Qed.

End chisquare_failure.

Lemma gumbel_fit_quantiles :
  @theoretical_estimate stub gumbel (loc_scale 0 1)
    (PlottingPosition.weibul_values [1; 2] false)
  = Ok gumbel_fit_Qth.
Proof.
  apply (Gumbel_theoretical_estimate_ok _ _ 0 1); [done|done|lra|].
  by apply any_weibul_values.
Qed.

(** C7, as stated, fails where it confines the leniency to GEV and
    Exponential: for Gumbel, with a Chi-square routine that raises,
    [chisquare] prints the exception and returns [None], and
    [estimate_parameter] with the test flag returns the fitted
    parameters. *)
Lemma C7_leniency_reaches_Gumbel :
  @chisquare stub gumbel gumbel_fit
  = (Ok None,
     {| obj := obj gumbel_fit;
        stdout := ["observed and expected frequencies disagree"] |})
  /\ (exists s', @estimate_parameter stub gumbel "mle" None None true gumbel_unfit
                 = (Ok (loc_scale 0 1), s'))
  /\ gumbel <> gev /\ gumbel <> exponential.
Proof.
  split.
  - apply (@chisquare_caught stub gumbel gumbel_fit (loc_scale 0 1)
             (PlottingPosition.weibul_values [1; 2] false) gumbel_fit_Qth [1; 2]
             (ValueError "observed and expected frequencies disagree"));
      [done|done|apply gumbel_fit_quantiles|done|done].
  - split; [|by split].
    pose proof (@estimate_parameter_then_tests stub gumbel "mle" None None gumbel_unfit)
      as Hsplit.
    change (@estimate_parameter stub gumbel "mle" None None false gumbel_unfit)
      with (Ok (loc_scale 0 1), gumbel_fit) in Hsplit.
    destruct Hsplit as [_ ->].
    destruct (@ks_runs stub gumbel gumbel_fit (loc_scale 0 1)
                (PlottingPosition.weibul_values [1; 2] false) gumbel_fit_Qth [1; 2] (0, 1)
                (1.22 / sqrt (INR 2)) eq_refl eq_refl gumbel_fit_quantiles
                eq_refl eq_refl eq_refl) as [s1 Hks].
    destruct (@diagnostics_after_ks stub gumbel gumbel_fit s1 (0, 1) Hks) as [s2 ->].
    eauto.
Qed.

Lemma C7_chisquare_failure_is_caught_witness :
  self_parameters (obj gumbel_fit) = Some (Some (loc_scale 0 1))
  /\ self_cdf_Weibul (obj gumbel_fit) = Some (PlottingPosition.weibul_values [1; 2] false)
  /\ self_data (obj gumbel_fit) = Some [1; 2]
  /\ @theoretical_estimate stub gumbel (loc_scale 0 1)
       (PlottingPosition.weibul_values [1; 2] false) = Ok gumbel_fit_Qth
  /\ @chisquare_expression stub gumbel_fit_Qth [1; 2]
     = Raise (ValueError "observed and expected frequencies disagree")
  /\ @chisquare stub gumbel gumbel_fit
     = (Ok None,
        {| obj := obj gumbel_fit;
           stdout := ["observed and expected frequencies disagree"] |}).
Proof.
  split; [reflexivity|]. split; [reflexivity|]. split; [reflexivity|].
  split; [exact gumbel_fit_quantiles|]. split; [reflexivity|].
  apply (@C7_chisquare_failure_is_caught stub gumbel gumbel_fit (loc_scale 0 1)
           (PlottingPosition.weibul_values [1; 2] false) gumbel_fit_Qth
           [1; 2] (ValueError "observed and expected frequencies disagree")
           eq_refl eq_refl eq_refl gumbel_fit_quantiles eq_refl).
Defined.

(** ** The closed-form confidence interval of Gumbel *)

Lemma comprehension_pure {A B} (g : A -> B) (xs : list A) :
  comprehension (fun x => Ok (g x)) xs = Ok (map g xs).
Proof. induction xs as [|x xs IH]; simpl; [done|]. by rewrite IH. Qed.

Lemma getitem_Some (l : list R) (j : nat) (x : R) : l !! j = Some x -> getitem l j = Ok x.
Proof. intros Hl. unfold getitem. by rewrite Hl. Qed.

Lemma getitem_None (l : list R) (j : nat) :
  (length l <= j)%nat -> getitem l j = Raise (IndexError "index out of range").
Proof. intros Hl. unfold getitem. by rewrite lookup_ge_None_2. Qed.

(** Assembling a bound over [range(n)]: it succeeds when both arrays have
    at least [n] entries ... *)
Lemma bound_over_range (op : R -> R -> R) (Qth SE : list R) (n : nat) :
  (n <= length Qth)%nat -> (n <= length SE)%nat ->
  exists B,
    comprehension (fun j => q ← getitem Qth j; e ← getitem SE j; Ok (op q e)) (seq 0 n)
    = Ok B
    /\ length B = n
    /\ (forall j q e, Qth !! j = Some q -> SE !! j = Some e -> (j < n)%nat ->
          B !! j = Some (op q e)).
Proof.
  intros HQ HS.
  destruct (comprehension_total
              (fun j => q ← getitem Qth j; e ← getitem SE j; Ok (op q e)) (seq 0 n))
    as [B HB].
  { intros j Hj. apply elem_of_seq in Hj.
    destruct (lookup_lt_is_Some_2 Qth j) as [q Hq]; [lia|].
    destruct (lookup_lt_is_Some_2 SE j) as [e He]; [lia|].
    exists (op q e). by rewrite (getitem_Some _ _ _ Hq), (getitem_Some _ _ _ He). }
  exists B. split; [done|]. split.
  - rewrite (comprehension_length _ _ _ HB). apply length_seq.
  - intros j q e Hq He Hj.
    destruct (comprehension_lookup _ _ _ j j HB) as (b & Hb & Hval).
    { by rewrite lookup_seq_lt. }
    rewrite (getitem_Some _ _ _ Hq), (getitem_Some _ _ _ He) in Hval. simpl in Hval.
    congruence.
Qed.

(** ... and raises [IndexError] at the first index past the shorter one. *)
Lemma bound_over_range_short (op : R -> R -> R) (Qth SE : list R) (n : nat) :
  (length Qth < n)%nat -> length SE = length Qth ->
  comprehension (fun j => q ← getitem Qth j; e ← getitem SE j; Ok (op q e)) (seq 0 n)
  = Raise (IndexError "index out of range").
Proof.
  intros HQ HS.
  apply (comprehension_raise _ _ (length Qth) (length Qth)).
  - by rewrite lookup_seq_lt.
  - cbv beta. by rewrite (getitem_None Qth) by lia.
  - intros j z Hj Hz. apply lookup_seq in Hz as [-> _]. simpl.
    destruct (lookup_lt_is_Some_2 Qth j) as [q Hq]; [lia|].
    destruct (lookup_lt_is_Some_2 SE j) as [e He]; [lia|].
    exists (op q e). by rewrite (getitem_Some _ _ _ Hq), (getitem_Some _ _ _ He).
Qed.

Section closed_form_interval.
Context `{Externals}.

(** Past its guards, [confidence_interval] is the two bounds assembled
    over [range(len(self.data))] from the quantiles and the standard errors
    computed over [F]. *)
Lemma confidence_interval_steps (self : Distribution) (parameters : gmap string R)
  (F data : list R) (alpha l s : R) :
  self_data self = Some data ->
  parameters !! "loc" = Some l -> parameters !! "scale" = Some s -> 0 < s ->
  any F = true ->
  Gumbel.confidence_interval self parameters F alpha
  = (Qupper ← comprehension
       (fun j =>
          q ← getitem (map (fun f => l - s * ln (- ln f)) F) j;
          e ← getitem (map (fun f => spec_standard_error s (length data)
                                       (spec_reduced_variate f)) F) j;
          Ok (q + norm_ppf (1 - alpha / 2) 0 1 * e))
       (seq 0 (length data));
     Qlower ← comprehension
       (fun j =>
          q ← getitem (map (fun f => l - s * ln (- ln f)) F) j;
          e ← getitem (map (fun f => spec_standard_error s (length data)
                                       (spec_reduced_variate f)) F) j;
          Ok (q - norm_ppf (1 - alpha / 2) 0 1 * e))
       (seq 0 (length data));
     Ok (Qupper, Qlower)).
Proof.
  intros Hd Hl Hs Hpos Hany. unfold Gumbel.confidence_interval.
  rewrite Hs, (le0_Some_pos s Hpos). simpl.
  rewrite (Gumbel_theoretical_estimate_ok parameters F l s Hl Hs Hpos Hany). simpl.
  rewrite Hd. simpl.
  rewrite (comprehension_pure
             (fun j => s / sqrt (INR (length data))
                       * sqrt (1.1087 + 0.5140 * j + 0.6079 * j ^ 2))).
  simpl. by rewrite map_map.
Qed.

End closed_form_interval.

Lemma any_head_nonzero (x : R) (xs : list R) : x <> 0 -> any (x :: xs) = true.
Proof.
  intros Hx. unfold any. cbn [existsb]. apply orb_true_iff. left.
  unfold truthy. by rewrite bool_decide_eq_false_2.
Qed.

Lemma any_of_probabilities (F : list R) :
  F <> [] -> Forall (fun f => 0 < f < 1) F -> any F = true.
Proof.
  intros Hne HF. destruct F as [|f F]; [done|].
  apply any_head_nonzero. apply Forall_cons in HF as [Hf _]. lra.
Qed.

Section interval_shape.
Context `{Externals}.

Lemma confidence_interval_long (self : Distribution) (parameters : gmap string R)
  (F data : list R) (alpha l s : R) :
  self_data self = Some data ->
  parameters !! "loc" = Some l -> parameters !! "scale" = Some s -> 0 < s ->
  any F = true -> (length data <= length F)%nat ->
  exists Qupper Qlower,
    Gumbel.confidence_interval self parameters F alpha = Ok (Qupper, Qlower)
    /\ length Qupper = length data /\ length Qlower = length data
    /\ (forall j f, F !! j = Some f -> (j < length data)%nat ->
          Qupper !! j
          = Some ((l - s * ln (- ln f))
                  + norm_ppf (1 - alpha / 2) 0 1
                    * spec_standard_error s (length data) (spec_reduced_variate f))
          /\ Qlower !! j
          = Some ((l - s * ln (- ln f))
                  - norm_ppf (1 - alpha / 2) 0 1
                    * spec_standard_error s (length data) (spec_reduced_variate f))).
Proof.
  intros Hd Hl Hs Hpos Hany Hlen.
  rewrite (confidence_interval_steps self parameters F data alpha l s Hd Hl Hs Hpos Hany).
  set (Qth := map (fun f => l - s * ln (- ln f)) F).
  set (SE := map (fun f => spec_standard_error s (length data) (spec_reduced_variate f)) F).
  set (v := norm_ppf (1 - alpha / 2) 0 1).
  assert (length Qth = length F) as HQ by apply length_map.
  assert (length SE = length F) as HS by apply length_map.
  destruct (bound_over_range (fun q e => q + v * e) Qth SE (length data))
    as (U & HU & HUlen & HUval); [lia|lia|].
  destruct (bound_over_range (fun q e => q - v * e) Qth SE (length data))
    as (L & HL & HLlen & HLval); [lia|lia|].
  exists U, L. rewrite HU. simpl. rewrite HL. simpl.
  split; [done|]. split; [done|]. split; [done|].
  intros j f Hf Hj.
  assert (Qth !! j = Some (l - s * ln (- ln f))) as Hq
    by (unfold Qth; by rewrite list_lookup_fmap, Hf).
  assert (SE !! j = Some (spec_standard_error s (length data) (spec_reduced_variate f)))
    as He by (unfold SE; by rewrite list_lookup_fmap, Hf).
  split; [by apply HUval | by apply HLval].
Qed.

Lemma confidence_interval_short (self : Distribution) (parameters : gmap string R)
  (F data : list R) (alpha l s : R) :
  self_data self = Some data ->
  parameters !! "loc" = Some l -> parameters !! "scale" = Some s -> 0 < s ->
  any F = true -> (length F < length data)%nat ->
  Gumbel.confidence_interval self parameters F alpha
  = Raise (IndexError "index out of range").
Proof.
  intros Hd Hl Hs Hpos Hany Hlen.
  rewrite (confidence_interval_steps self parameters F data alpha l s Hd Hl Hs Hpos Hany).
  rewrite (bound_over_range_short
             (fun q e => q + norm_ppf (1 - alpha / 2) 0 1 * e)
             (map (fun f => l - s * ln (- ln f)) F)
             (map (fun f => spec_standard_error s (length data) (spec_reduced_variate f)) F)
             (length data))
    by (rewrite ?length_map; lia).
  reflexivity.
Qed.

Lemma standard_error_nonneg (s : R) (n : nat) (y : R) :
  0 < s -> (1 <= n)%nat -> 0 <= spec_standard_error s n y.
Proof.
  intros Hs Hn. unfold spec_standard_error.
  assert (0 < sqrt (INR n)) by (apply sqrt_lt_R0, lt_0_INR; lia).
  apply Rmult_le_pos; [|apply sqrt_pos].
  apply Rlt_le, Rdiv_lt_0_compat; lra.
Qed.

(** C10, amended: for a positive scale and probabilities that pass the
    guard of [theoretical_estimate] (at least one non-zero entry), the two
    bounds have exactly as many entries as the sample when [F] has at least
    that many, and the call raises [IndexError] when [F] has fewer. *)
Theorem C10_bounds_follow_sample_length (self : Distribution)
  (parameters : gmap string R) (F data : list R) (alpha l s : R) :
  self_data self = Some data ->
  parameters !! "loc" = Some l -> parameters !! "scale" = Some s -> 0 < s ->
  any F = true ->
  ((length data <= length F)%nat ->
     exists Qupper Qlower,
       Gumbel.confidence_interval self parameters F alpha = Ok (Qupper, Qlower)
       /\ length Qupper = length data /\ length Qlower = length data)
  /\ ((length F < length data)%nat ->
     Gumbel.confidence_interval self parameters F alpha
     = Raise (IndexError "index out of range")).
Proof.
  intros Hd Hl Hs Hpos Hany. split; intros Hlen.
  - destruct (confidence_interval_long self parameters F data alpha l s)
      as (U & L & Hrun & HU & HL & _); try done.
    by exists U, L.
  - by apply (confidence_interval_short self parameters F data alpha l s).
Qed.

(** The formulas of C4 where the call returns: for a sample of n >= 1
    observations, a positive scale, alpha in (0, 1) and probabilities
    strictly between 0 and 1 of which there are at least n, the interval
    returns, at each index j below n,
    the quantile plus and minus z times the standard error of the reduced
    variate of [F[j]], and the two bounds bracket the quantile.  z is the
    standard normal quantile at 1 - alpha/2, positive because that quantile
    function is positive above one half. *)
Theorem C4_closed_form_bounds (self : Distribution) (parameters : gmap string R)
  (F data : list R) (alpha l s : R) :
  (forall q, 1 / 2 < q < 1 -> 0 < norm_ppf q 0 1) ->
  self_data self = Some data -> data <> [] ->
  parameters !! "loc" = Some l -> parameters !! "scale" = Some s -> 0 < s ->
  0 < alpha < 1 ->
  Forall (fun f => 0 < f < 1) F ->
  (length data <= length F)%nat ->
  exists Qth Qupper Qlower,
    Gumbel.theoretical_estimate parameters F = Ok Qth
    /\ Gumbel.confidence_interval self parameters F alpha = Ok (Qupper, Qlower)
    /\ forall j, (j < length data)%nat ->
         exists f q,
           F !! j = Some f /\ Qth !! j = Some q
           /\ Qupper !! j
              = Some (q + norm_ppf (1 - alpha / 2) 0 1
                          * spec_standard_error s (length data) (spec_reduced_variate f))
           /\ Qlower !! j
              = Some (q - norm_ppf (1 - alpha / 2) 0 1
                          * spec_standard_error s (length data) (spec_reduced_variate f))
           /\ q - norm_ppf (1 - alpha / 2) 0 1
                  * spec_standard_error s (length data) (spec_reduced_variate f)
              <= q
              <= q + norm_ppf (1 - alpha / 2) 0 1
                     * spec_standard_error s (length data) (spec_reduced_variate f).
Proof.
  intros Hppf Hd Hne Hl Hs Hpos Halpha HF Hlen.
  assert (1 <= length data)%nat as Hn by (destruct data; [done|simpl; lia]).
  assert (any F = true) as Hany.
  { apply any_of_probabilities; [|done]. intros ->. simpl in Hlen. lia. }
  destruct (confidence_interval_long self parameters F data alpha l s)
    as (U & L & Hrun & _ & _ & Hval); try done.
  exists (map (fun f => l - s * ln (- ln f)) F), U, L.
  split; [by apply Gumbel_theoretical_estimate_ok|]. split; [done|].
  intros j Hj.
  destruct (lookup_lt_is_Some_2 F j) as [f Hf]; [lia|].
  exists f, (l - s * ln (- ln f)).
  destruct (Hval j f Hf Hj) as [HU HL].
  split; [done|]. split; [by rewrite list_lookup_fmap, Hf|].
  split; [done|]. split; [done|].
  assert (0 < norm_ppf (1 - alpha / 2) 0 1) by (apply Hppf; lra).
  pose proof (standard_error_nonneg s (length data) (spec_reduced_variate f) Hpos Hn).
  assert (0 <= norm_ppf (1 - alpha / 2) 0 1
               * spec_standard_error s (length data) (spec_reduced_variate f))
    by (apply Rmult_le_pos; lra).
  lra.
Qed.

End interval_shape.

(** C10, as stated, fails on the empty probability array: it has fewer
    entries than the one-observation sample, and the call raises
    [ValueError] from the guard of [theoretical_estimate], not
    [IndexError]. *)
Lemma C10_no_probabilities_raise_ValueError :
  (length ([] : list R) < length ([1]%R : list R))%nat
  /\ @Gumbel.confidence_interval stub (Gumbel.__init__ (Some [1]) None)
       (loc_scale 0 1) [] 0.1
     = Raise (ValueError "cdf Value Invalid").
Proof.
  split; [simpl; lia|].
  unfold Gumbel.confidence_interval.
  replace (loc_scale 0 1 !! "scale") with (Some 1) by done.
  rewrite (le0_Some_pos 1) by lra. simpl.
  by rewrite (Gumbel_theoretical_estimate_all_zero (loc_scale 0 1) [] 1) by (done || lra).
Qed.

Lemma C10_bounds_follow_sample_length_witness :
  self_data (Gumbel.__init__ (Some [1; 2]) None) = Some [1; 2]
  /\ loc_scale 0 1 !! "loc" = Some 0
  /\ loc_scale 0 1 !! "scale" = Some 1
  /\ 0 < 1
  /\ any [0.25; 0.5; 0.75] = true
  /\ (length ([1; 2]%R : list R) <= length ([0.25; 0.5; 0.75]%R : list R))%nat
  /\ exists Qupper Qlower,
       @Gumbel.confidence_interval stub (Gumbel.__init__ (Some [1; 2]) None)
         (loc_scale 0 1) [0.25; 0.5; 0.75] 0.1 = Ok (Qupper, Qlower)
       /\ length Qupper = 2%nat /\ length Qlower = 2%nat.
Proof.
  assert (0 < 1) as Hpos by lra.
  assert (any [0.25; 0.5; 0.75] = true) as Hany by (apply any_head_nonzero; lra).
  assert (length ([1; 2]%R : list R) <= length ([0.25; 0.5; 0.75]%R : list R))%nat as Hlen
    by (simpl; lia).
  do 3 (split; [reflexivity|]).
  split; [exact Hpos|]. split; [exact Hany|]. split; [exact Hlen|].
  destruct (@C10_bounds_follow_sample_length stub (Gumbel.__init__ (Some [1; 2]) None)
              (loc_scale 0 1) [0.25; 0.5; 0.75] [1; 2] 0.1 0 1
              eq_refl eq_refl eq_refl Hpos Hany) as [Hlong _].
  exact (Hlong Hlen).
Defined.

(** C4: the quantiles and standard errors are computed over [F], but the
    bounds are assembled over the indices of the sample.  With two
    observations, scale 1, alpha 0.1 and the single valid probability 0.5
    the call raises [IndexError] instead of returning the bounds of the
    claim. *)
Lemma C4_fewer_probabilities_than_observations :
  0 < 1 /\ 0 < 0.1 < 1 /\ Forall (fun f => 0 < f < 1) [0.5]
  /\ @Gumbel.confidence_interval stub (Gumbel.__init__ (Some [1; 2]) None)
       (loc_scale 0 1) [0.5] 0.1
     = Raise (IndexError "index out of range").
Proof.
  split; [lra|]. split; [lra|]. split; [repeat constructor; lra|].
  apply (@confidence_interval_short stub _ _ _ [1; 2] _ 0 1);
    [done|done|done|lra|apply any_head_nonzero; lra|simpl; lia].
Qed.

Lemma C4_closed_form_bounds_witness :
  (forall q, 1 / 2 < q < 1 -> 0 < @norm_ppf stub q 0 1)
  /\ self_data (Gumbel.__init__ (Some [1; 2]) None) = Some [1; 2]
  /\ [1; 2] <> ([] : list R)
  /\ loc_scale 0 1 !! "loc" = Some 0
  /\ loc_scale 0 1 !! "scale" = Some 1
  /\ 0 < 1
  /\ 0 < 0.1 < 1
  /\ Forall (fun f => 0 < f < 1) [0.25; 0.5]
  /\ (length ([1; 2]%R : list R) <= length ([0.25; 0.5]%R : list R))%nat
  /\ exists Qth Qupper Qlower,
       Gumbel.theoretical_estimate (loc_scale 0 1) [0.25; 0.5] = Ok Qth
       /\ @Gumbel.confidence_interval stub (Gumbel.__init__ (Some [1; 2]) None)
            (loc_scale 0 1) [0.25; 0.5] 0.1 = Ok (Qupper, Qlower)
       /\ exists q u l,
            Qth !! 0%nat = Some q /\ Qupper !! 0%nat = Some u /\ Qlower !! 0%nat = Some l
            /\ l <= q <= u.
Proof.
  assert (forall q, 1 / 2 < q < 1 -> 0 < @norm_ppf stub q 0 1) as Hppf
    by (intros q Hq; simpl; lra).
  assert (0 < 1) as Hpos by lra.
  assert (0 < 0.1 < 1) as Halpha by lra.
  assert (Forall (fun f => 0 < f < 1) [0.25; 0.5]) as HF by (repeat constructor; lra).
  assert (length ([1; 2]%R : list R) <= length ([0.25; 0.5]%R : list R))%nat as Hlen
    by (simpl; lia).
  split; [exact Hppf|]. split; [reflexivity|]. split; [discriminate|].
  split; [reflexivity|]. split; [reflexivity|]. split; [exact Hpos|].
  split; [exact Halpha|]. split; [exact HF|]. split; [exact Hlen|].
  destruct (@C4_closed_form_bounds stub (Gumbel.__init__ (Some [1; 2]) None)
              (loc_scale 0 1) [0.25; 0.5] [1; 2] 0.1 0 1
              Hppf eq_refl ltac:(discriminate) eq_refl eq_refl Hpos Halpha HF Hlen)
    as (Qth & U & L & Hq & Hrun & Hval).
  exists Qth, U, L. split; [exact Hq|]. split; [exact Hrun|].
  destruct (Hval 0%nat ltac:(simpl; lia)) as (f & q & _ & Hqj & HU & HL & Hbr).
  eexists q, _, _. split; [exact Hqj|]. split; [exact HU|]. split; [exact HL|].
  exact Hbr.
Defined.

(** * Further properties of the module *)

(** ** Plotting positions and return periods *)

Lemma rank_probabilities_nth (n k : nat) :
  (k < n)%nat ->
  PlottingPosition.rank_probabilities n !! k = Some (INR (S k) / INR (n + 1)).
Proof.
  intros Hk. pose proof (rank_probabilities_lookup n (S k) ltac:(lia)) as Hr.
  by replace (S k - 1)%nat with k in Hr by lia.
Qed.

Lemma return_period_of_rank (n i : nat) :
  (1 <= i <= n)%nat ->
  1 / (1 - INR i / INR (n + 1)) = INR (n + 1) / INR (n + 1 - i).
Proof.
  intros Hi. rewrite (minus_INR (n + 1) i) by lia.
  assert (INR i < INR (n + 1)) by (apply lt_INR; lia).
  assert (0 < INR (n + 1)) by (apply lt_0_INR; lia).
  field. lra.
Qed.

(** X1: the plotting positions [weibul] returns lie strictly between 0 and
    1 and increase strictly with the rank. *)
Theorem X1_weibul_positions_increase (h : PlottingPosition.store) (data : positive)
  (sample : list R) :
  h !! data = Some sample ->
  exists F h',
    PlottingPosition.weibul data false h = Some (F, h')
    /\ Forall (fun p => 0 < p < 1) F
    /\ (forall i j a b, (i < j)%nat -> F !! i = Some a -> F !! j = Some b -> a < b).
Proof.
  intros Hd. eexists _, _. split; [by apply weibul_run|].
  change (PlottingPosition.weibul_values sample false)
    with (PlottingPosition.rank_probabilities (length sample)).
  split.
  - apply Forall_lookup. intros k p Hk.
    assert (k < length sample)%nat as Hlt.
    { apply lookup_lt_Some in Hk. by rewrite rank_probabilities_length in Hk. }
    rewrite rank_probabilities_nth in Hk by done.
    assert (p = INR (S k) / INR (length sample + 1)) as -> by congruence.
    apply rank_probability_below_one. lia.
  - intros i j a b Hij Ha Hb.
    assert (j < length sample)%nat as Hj.
    { apply lookup_lt_Some in Hb. by rewrite rank_probabilities_length in Hb. }
    rewrite rank_probabilities_nth in Ha by lia.
    rewrite rank_probabilities_nth in Hb by lia.
    assert (a = INR (S i) / INR (length sample + 1)) as -> by congruence.
    assert (b = INR (S j) / INR (length sample + 1)) as -> by congruence.
    assert (0 < INR (length sample + 1)) by (apply lt_0_INR; lia).
    assert (INR (S i) < INR (S j)) by (apply lt_INR; lia).
    unfold Rdiv. apply Rmult_lt_compat_r; [by apply Rinv_0_lt_compat|done].
Qed.

Lemma X1_weibul_positions_increase_witness :
  ({[1%positive := [3; 1; 2]]} : PlottingPosition.store) !! 1%positive = Some [3; 1; 2]
  /\ exists F h',
       PlottingPosition.weibul 1%positive false {[1%positive := [3; 1; 2]]} = Some (F, h')
       /\ Forall (fun p => 0 < p < 1) F
       /\ (forall i j a b, (i < j)%nat -> F !! i = Some a -> F !! j = Some b -> a < b).
Proof.
  split; [apply lookup_singleton_eq|].
  apply (X1_weibul_positions_increase {[1%positive := [3; 1; 2]]} 1%positive [3; 1; 2]).
  apply lookup_singleton_eq.
Defined.

(** X2: with the return-period flag, every value [weibul] returns is
    greater than 1, and the values increase strictly with the rank. *)
Theorem X2_weibul_return_periods (h : PlottingPosition.store) (data : positive)
  (sample : list R) :
  h !! data = Some sample ->
  exists T h',
    PlottingPosition.weibul data true h = Some (T, h')
    /\ Forall (fun t => 1 < t) T
    /\ (forall i j a b, (i < j)%nat -> T !! i = Some a -> T !! j = Some b -> a < b).
Proof.
  intros Hd. eexists _, _. split; [by apply weibul_run|].
  change (PlottingPosition.weibul_values sample true)
    with (PlottingPosition.return_period
            (PlottingPosition.rank_probabilities (length sample))).
  unfold PlottingPosition.return_period.
  assert (forall k t,
            map (fun f => 1 / (1 - f))
              (PlottingPosition.rank_probabilities (length sample)) !! k = Some t ->
            (k < length sample)%nat
            /\ t = INR (length sample + 1) / INR (length sample + 1 - S k)) as Hval.
  { intros k t Hk.
    assert (k < length sample)%nat as Hlt.
    { apply lookup_lt_Some in Hk.
      by rewrite length_map, rank_probabilities_length in Hk. }
    split; [done|].
    assert (forall i, (1 <= i <= length sample)%nat ->
              map (fun f => 1 / (1 - f))
                (PlottingPosition.rank_probabilities (length sample)) !! (i - 1)%nat
              = Some (INR (length sample + 1) / INR (length sample + 1 - i))) as Hrank.
    { intros i Hi. rewrite list_lookup_fmap, rank_probabilities_lookup by done. simpl.
      by rewrite return_period_of_rank. }
    pose proof (Hrank (S k) ltac:(lia)) as Hv.
    replace (S k - 1)%nat with k in Hv by lia. congruence. }
  split.
  - apply Forall_lookup. intros k t Hk.
    destruct (Hval k t Hk) as [Hlt ->].
    assert (0 < INR (length sample + 1 - S k)) by (apply lt_0_INR; lia).
    assert (INR (length sample + 1 - S k) < INR (length sample + 1))
      by (apply lt_INR; lia).
    apply Rmult_lt_reg_r with (INR (length sample + 1 - S k)); [done|].
    unfold Rdiv. rewrite Rmult_assoc, Rinv_l by lra. lra.
  - intros i j a b Hij Ha Hb.
    destruct (Hval i a Ha) as [_ ->]. destruct (Hval j b Hb) as [Hj ->].
    assert (0 < INR (length sample + 1)) by (apply lt_0_INR; lia).
    assert (0 < INR (length sample + 1 - S j)) by (apply lt_0_INR; lia).
    assert (INR (length sample + 1 - S j) < INR (length sample + 1 - S i))
      by (apply lt_INR; lia).
    unfold Rdiv. apply Rmult_lt_compat_l; [done|].
    apply Rinv_lt_contravar; [|done].
    apply Rmult_lt_0_compat; lra.
Qed.

Lemma X2_weibul_return_periods_witness :
  ({[1%positive := [3; 1; 2]]} : PlottingPosition.store) !! 1%positive = Some [3; 1; 2]
  /\ exists T h',
       PlottingPosition.weibul 1%positive true {[1%positive := [3; 1; 2]]} = Some (T, h')
       /\ Forall (fun t => 1 < t) T
       /\ (forall i j a b, (i < j)%nat -> T !! i = Some a -> T !! j = Some b -> a < b).
Proof.
  split; [apply lookup_singleton_eq|].
  apply (X2_weibul_return_periods {[1%positive := [3; 1; 2]]} 1%positive [3; 1; 2]).
  apply lookup_singleton_eq.
Defined.

(** ** The constructor *)

(** X4: the base constructor keeps the sample in the order given, caches a
    sorted permutation of it, and attaches one plotting position per
    observation, each strictly between 0 and 1; the parameters are stored as
    passed and the four test results start as [None]. *)
Theorem X4_constructor_caches (data : list R) (parameters : option (gmap string R)) :
  self_data (AbstractDistribution.__init__ (Some data) parameters) = Some data
  /\ (exists sorted,
        self_data_sorted (AbstractDistribution.__init__ (Some data) parameters)
        = Some sorted
        /\ Sorted Rle sorted /\ sorted ≡ₚ data)
  /\ (exists F,
        self_cdf_Weibul (AbstractDistribution.__init__ (Some data) parameters) = Some F
        /\ length F = length data /\ Forall (fun p => 0 < p < 1) F)
  /\ self_parameters (AbstractDistribution.__init__ (Some data) parameters)
     = Some parameters
  /\ self_Dstatic (AbstractDistribution.__init__ (Some data) parameters) = None
  /\ self_KS_Pvalue (AbstractDistribution.__init__ (Some data) parameters) = None
  /\ self_chistatic (AbstractDistribution.__init__ (Some data) parameters) = None
  /\ self_chi_Pvalue (AbstractDistribution.__init__ (Some data) parameters) = None.
Proof.
  split; [done|]. split.
  { exists (merge_sort Rle data). split; [done|]. split.
    - apply (@Sorted_merge_sort _ Rle _ Rle_total).
    - apply merge_sort_Permutation. }
  split; [|done].
  exists (PlottingPosition.rank_probabilities (length data)).
  split; [done|]. split; [apply rank_probabilities_length|].
  apply Forall_lookup. intros k p Hk.
  assert (k < length data)%nat as Hlt.
  { apply lookup_lt_Some in Hk. by rewrite rank_probabilities_length in Hk. }
  rewrite rank_probabilities_nth in Hk by done.
  assert (p = INR (S k) / INR (length data + 1)) as -> by congruence.
  apply rank_probability_below_one. lia.
Qed.

(** ** Evaluating the distributions *)

Section evaluation.
Context `{Externals}.

(** X5: a dictionary without the key "scale" makes every operation that
    has the scale guard raise [TypeError], not [ValueError]: the guard
    compares [None] with 0. *)
Theorem X5_missing_scale_is_TypeError (fam : family) (op : operation)
  (self : Distribution) (parameters : gmap string R) (input : list R) :
  parameters !! "scale" = None ->
  (fam, op) <> (gev, op_pdf) ->
  exists msg, evaluate fam op self parameters input = Raise (TypeError msg).
Proof.
  intros Hs Hne.
  destruct fam, op; try congruence; simpl;
    unfold Gumbel.pdf, Gumbel._pdf_eq, Gumbel.cdf, Gumbel._cdf_eq,
      Gumbel.theoretical_estimate, GEV.cdf, GEV.theoretical_estimate,
      Exponential.pdf, Exponential.cdf, Exponential._cdf_eq,
      Exponential.theoretical_estimate, Normal.pdf, Normal.cdf,
      Normal.theoretical_estimate;
    simpl; rewrite Hs; simpl; eauto.
Qed.

(** X6: whenever [pdf], [cdf] or [theoretical_estimate] returns, it
    returns one value per element of the series it was given. *)
Theorem X6_one_value_per_element (fam : family) (op : operation)
  (self : Distribution) (parameters : gmap string R) (input out : list R) :
  evaluate fam op self parameters input = Ok out ->
  length out = length input.
Proof.
  destruct fam, op; simpl;
    unfold Gumbel.pdf, Gumbel._pdf_eq, Gumbel.cdf, Gumbel._cdf_eq,
      Gumbel.theoretical_estimate, GEV.pdf, GEV._pdf_eq, GEV.cdf, GEV._cdf_eq,
      GEV.theoretical_estimate,
      Exponential.pdf, Exponential._pdf_eq, Exponential.cdf, Exponential._cdf_eq,
      Exponential.theoretical_estimate, Normal.pdf, Normal.cdf,
      Normal.theoretical_estimate, le0, as_float;
    simpl; intros Hrun;
    repeat (case_match; simplify_eq/=; try done);
    by rewrite length_map.
Qed.

(** X7: an object built without a sample cannot evaluate [pdf] or [cdf] on
    its own series: with valid parameters and no [actual_data], all eight
    methods raise [AttributeError] for the missing attribute [data]. *)
Theorem X7_no_sample_no_default_series (fam : family) (self : Distribution)
  (parameters : gmap string R) (l s c : R) :
  self_data self = None ->
  parameters !! "loc" = Some l -> parameters !! "scale" = Some s ->
  parameters !! "shape" = Some c ->
  0 < l -> 0 < s ->
  pdf fam self parameters None = Raise (AttributeError "data")
  /\ cdf fam self parameters None = Raise (AttributeError "data").
Proof.
  intros Hd Hl Hs Hc Hlpos Hspos.
  destruct fam; simpl;
    unfold Gumbel.pdf, Gumbel.cdf, GEV.pdf, GEV.cdf, Exponential.pdf, Exponential.cdf,
      Normal.pdf, Normal.cdf, AbstractDistribution.pdf;
    rewrite ?Hd, ?Hl, ?Hs, ?(le0_Some_pos s Hspos), ?(le0_Some_pos l Hlpos); simpl;
    rewrite ?Hd; by split.
Qed.

End evaluation.

Lemma X5_missing_scale_is_TypeError_witness :
  (∅ : gmap string R) !! "scale" = None
  /\ (gumbel, op_cdf) <> (gev, op_pdf)
  /\ exists msg,
       @evaluate stub gumbel op_cdf (Gumbel.__init__ None None) ∅ [1; 2]
       = Raise (TypeError msg).
Proof.
  assert ((gumbel, op_cdf) <> (gev, op_pdf)) as Hne by discriminate.
  split; [reflexivity|]. split; [exact Hne|].
  exact (@X5_missing_scale_is_TypeError stub gumbel op_cdf (Gumbel.__init__ None None)
           ∅ [1; 2] eq_refl Hne).
Defined.

Lemma X6_one_value_per_element_witness :
  @evaluate stub gev op_pdf (GEV.__init__ None None) (loc_scale_shape 0 1 0) [1; 2]
  = Ok [0; 0]
  /\ length ([0; 0] : list R) = length ([1; 2] : list R).
Proof.
  split; [reflexivity|].
  exact (@X6_one_value_per_element stub gev op_pdf (GEV.__init__ None None)
           (loc_scale_shape 0 1 0) [1; 2] [0; 0] eq_refl).
Defined.

Lemma X7_no_sample_no_default_series_witness :
  self_data (Exponential.__init__ None (Some (loc_scale_shape 1 1 0))) = None
  /\ loc_scale_shape 1 1 0 !! "loc" = Some 1
  /\ loc_scale_shape 1 1 0 !! "scale" = Some 1
  /\ loc_scale_shape 1 1 0 !! "shape" = Some 0
  /\ 0 < 1
  /\ @pdf stub exponential (Exponential.__init__ None (Some (loc_scale_shape 1 1 0)))
       (loc_scale_shape 1 1 0) None = Raise (AttributeError "data")
  /\ @cdf stub exponential (Exponential.__init__ None (Some (loc_scale_shape 1 1 0)))
       (loc_scale_shape 1 1 0) None = Raise (AttributeError "data").
Proof.
  assert (0 < 1) as Hpos by lra.
  do 4 (split; [reflexivity|]). split; [exact Hpos|].
  exact (@X7_no_sample_no_default_series stub exponential
           (Exponential.__init__ None (Some (loc_scale_shape 1 1 0)))
           (loc_scale_shape 1 1 0) 1 1 0 eq_refl eq_refl eq_refl eq_refl Hpos Hpos).
Defined.

(** ** Quantile functions *)

Lemma ln_negative (f : R) : 0 < f < 1 -> ln f < 0.
Proof. intros Hf. rewrite <- ln_1. apply ln_increasing; lra. Qed.

Lemma ln_monotone (a b : R) : 0 < a -> a <= b -> ln a <= ln b.
Proof.
  intros Ha Hab. destruct (Req_dec a b) as [->|Hne]; [lra|].
  apply Rlt_le, ln_increasing; lra.
Qed.

Lemma gumbel_quantile_monotone (l s f g : R) :
  0 < s -> 0 < f < 1 -> 0 < g < 1 -> f <= g ->
  l - s * ln (- ln f) <= l - s * ln (- ln g).
Proof.
  intros Hs Hf Hg Hfg.
  pose proof (ln_negative g Hg).
  assert (ln f <= ln g) by (apply ln_monotone; lra).
  assert (ln (- ln g) <= ln (- ln f)) by (apply ln_monotone; lra).
  nra.
Qed.

Lemma any_false_all_zero (F : list R) : Forall (fun f => f = 0) F -> any F = false.
Proof.
  induction 1 as [|f F Hf HF IH]; [done|].
  unfold any in *. cbn [existsb]. rewrite IH. unfold truthy.
  by rewrite bool_decide_eq_true_2.
Qed.

Lemma any_true_some_nonzero (F : list R) : Exists (fun f => f <> 0) F -> any F = true.
Proof.
  induction 1 as [f F Hf|f F HF IH].
  - by apply any_head_nonzero.
  - unfold any in *. cbn [existsb]. rewrite IH. apply orb_true_r.
Qed.

Section quantiles.
Context `{Externals}.

(** X8: for a positive scale, Gumbel's quantiles do not decrease with the
    probability: of two entries of [F] in (0, 1), the larger one gets the
    larger (or equal) quantile. *)
Theorem X8_Gumbel_quantile_is_monotone (parameters : gmap string R) (F Q : list R)
  (l s : R) :
  parameters !! "loc" = Some l -> parameters !! "scale" = Some s -> 0 < s ->
  Forall (fun f => 0 < f < 1) F ->
  Gumbel.theoretical_estimate parameters F = Ok Q ->
  forall i j f g, F !! i = Some f -> F !! j = Some g -> f <= g ->
    exists qf qg, Q !! i = Some qf /\ Q !! j = Some qg /\ qf <= qg.
Proof.
  intros Hl Hs Hpos HF Hrun i j f g Hi Hj Hfg.
  assert (F <> []) as Hne by (intros ->; done).
  rewrite (Gumbel_theoretical_estimate_ok parameters F l s Hl Hs Hpos) in Hrun
    by (by apply any_of_probabilities).
  inversion Hrun; subst Q.
  exists (l - s * ln (- ln f)), (l - s * ln (- ln g)).
  rewrite !list_lookup_fmap, Hi, Hj. split; [done|]. split; [done|].
  rewrite Forall_lookup in HF.
  apply gumbel_quantile_monotone; eauto.
Qed.

(** X10: with a positive scale, Gumbel's [theoretical_estimate] rejects
    exactly the arrays that hold no non-zero entry (the empty array
    included); any array with one non-zero entry is evaluated elementwise,
    whatever its other entries are. *)
Theorem X10_Gumbel_probability_guard (parameters : gmap string R) (F : list R) (l s : R) :
  parameters !! "loc" = Some l -> parameters !! "scale" = Some s -> 0 < s ->
  (Forall (fun f => f = 0) F ->
     Gumbel.theoretical_estimate parameters F = Raise (ValueError "cdf Value Invalid"))
  /\ (Exists (fun f => f <> 0) F ->
     Gumbel.theoretical_estimate parameters F
     = Ok (map (fun f => l - s * ln (- ln f)) F)).
Proof.
  intros Hl Hs Hpos. split; intros HF.
  - apply (Gumbel_theoretical_estimate_all_zero parameters F s Hs Hpos).
    by apply any_false_all_zero.
  - apply (Gumbel_theoretical_estimate_ok parameters F l s Hl Hs Hpos).
    by apply any_true_some_nonzero.
Qed.

(** X11: with a positive scale and a complete dictionary, the
    [theoretical_estimate] of GEV, Exponential and Normal never rejects the
    probabilities: every array, empty or out of range, is handed to scipy's
    quantile function elementwise. *)
Theorem X11_other_families_accept_any_probabilities (fam : family)
  (parameters : gmap string R) (F : list R) (l s c : R) :
  fam <> gumbel ->
  parameters !! "loc" = Some l -> parameters !! "scale" = Some s ->
  parameters !! "shape" = Some c -> 0 < s ->
  theoretical_estimate fam parameters F
  = Ok (map (fun q =>
               match fam with
               | gev => genextreme_ppf q c l s
               | exponential => expon_ppf q l s
               | _ => norm_ppf q l s
               end) F).
Proof.
  intros Hne Hl Hs Hc Hpos.
  destruct fam; try congruence; simpl;
    unfold GEV.theoretical_estimate, Exponential.theoretical_estimate,
      Normal.theoretical_estimate;
    rewrite Hl, Hs, ?Hc, (le0_Some_pos s Hpos); simpl;
    by rewrite range_test_others.
Qed.

End quantiles.

Lemma X8_Gumbel_quantile_is_monotone_witness :
  loc_scale 0 1 !! "loc" = Some 0
  /\ loc_scale 0 1 !! "scale" = Some 1
  /\ 0 < 1
  /\ Forall (fun f => 0 < f < 1) [0.25; 0.5]
  /\ Gumbel.theoretical_estimate (loc_scale 0 1) [0.25; 0.5]
     = Ok (map (fun f => 0 - 1 * ln (- ln f)) [0.25; 0.5])
  /\ 0.25 <= 0.5
  /\ exists qf qg,
       map (fun f => 0 - 1 * ln (- ln f)) [0.25; 0.5] !! 0%nat = Some qf
       /\ map (fun f => 0 - 1 * ln (- ln f)) [0.25; 0.5] !! 1%nat = Some qg
       /\ qf <= qg.
Proof.
  assert (0 < 1) as Hpos by lra.
  assert (Forall (fun f => 0 < f < 1) [0.25; 0.5]) as HF by (repeat constructor; lra).
  assert (Gumbel.theoretical_estimate (loc_scale 0 1) [0.25; 0.5]
          = Ok (map (fun f => 0 - 1 * ln (- ln f)) [0.25; 0.5])) as Hrun.
  { apply (Gumbel_theoretical_estimate_ok _ _ 0 1); [done|done|lra|].
    apply any_head_nonzero. lra. }
  assert (0.25 <= 0.5) as Hle by lra.
  do 2 (split; [reflexivity|]). split; [exact Hpos|]. split; [exact HF|].
  split; [exact Hrun|]. split; [exact Hle|].
  exact (X8_Gumbel_quantile_is_monotone (loc_scale 0 1) [0.25; 0.5] _ 0 1
           eq_refl eq_refl Hpos HF Hrun 0%nat 1%nat 0.25 0.5 eq_refl eq_refl Hle).
Defined.

Lemma X10_Gumbel_probability_guard_witness :
  loc_scale 0 1 !! "loc" = Some 0
  /\ loc_scale 0 1 !! "scale" = Some 1
  /\ 0 < 1
  /\ Forall (fun f => f = 0) ([] : list R)
  /\ Gumbel.theoretical_estimate (loc_scale 0 1) [] = Raise (ValueError "cdf Value Invalid")
  /\ Exists (fun f => f <> 0) [0; 2]
  /\ Gumbel.theoretical_estimate (loc_scale 0 1) [0; 2]
     = Ok (map (fun f => 0 - 1 * ln (- ln f)) [0; 2]).
Proof.
  assert (0 < 1) as Hpos by lra.
  assert (Exists (fun f => f <> 0) [0; 2]) as Hex
    by (apply Exists_cons_tl, Exists_cons_hd; lra).
  destruct (X10_Gumbel_probability_guard (loc_scale 0 1) [] 0 1 eq_refl eq_refl Hpos)
    as [Hzero _].
  destruct (X10_Gumbel_probability_guard (loc_scale 0 1) [0; 2] 0 1 eq_refl eq_refl Hpos)
    as [_ Hsome].
  do 2 (split; [reflexivity|]). split; [exact Hpos|]. split; [constructor|].
  split; [exact (Hzero (Forall_nil_2 _))|]. split; [exact Hex|]. exact (Hsome Hex).
Defined.

Lemma X11_other_families_accept_any_probabilities_witness :
  gev <> gumbel
  /\ loc_scale_shape 0 1 0 !! "loc" = Some 0
  /\ loc_scale_shape 0 1 0 !! "scale" = Some 1
  /\ loc_scale_shape 0 1 0 !! "shape" = Some 0
  /\ 0 < 1
  /\ @theoretical_estimate stub gev (loc_scale_shape 0 1 0) [-3; 7]
     = Ok (map (fun q => @genextreme_ppf stub q 0 0 1) [-3; 7]).
Proof.
  assert (gev <> gumbel) as Hne by discriminate.
  assert (0 < 1) as Hpos by lra.
  split; [exact Hne|]. do 3 (split; [reflexivity|]). split; [exact Hpos|].
  exact (@X11_other_families_accept_any_probabilities stub gev (loc_scale_shape 0 1 0)
           [-3; 7] 0 1 0 Hne eq_refl eq_refl eq_refl Hpos).
Defined.

(** ** More on the closed-form interval *)

Lemma comprehension_ext {A B} (f g : A -> result B) (xs : list A) :
  (forall x, x ∈ xs -> f x = g x) -> comprehension f xs = comprehension g xs.
Proof.
  induction xs as [|x xs IH]; intros Hfg; simpl; [done|].
  rewrite (Hfg x) by left. rewrite IH; [done|].
  intros z Hz. apply Hfg. by right.
Qed.

Lemma getitem_prefix (g : R -> R) (F extra : list R) (j : nat) :
  (j < length F)%nat -> getitem (map g (F ++ extra)) j = getitem (map g F) j.
Proof.
  intros Hj. unfold getitem. by rewrite map_app, lookup_app_l by (by rewrite length_map).
Qed.


Section interval_more.
Context `{Externals}.


(** X13: only the first n probabilities count, n being the sample length:
    appending further entries to an [F] that already has n of them leaves
    both bounds as they were. *)
Theorem X13_interval_ignores_extra_probabilities (self : Distribution)
  (parameters : gmap string R) (F extra data : list R) (alpha l s : R) :
  self_data self = Some data ->
  parameters !! "loc" = Some l -> parameters !! "scale" = Some s -> 0 < s ->
  any F = true -> (length data <= length F)%nat ->
  Gumbel.confidence_interval self parameters (F ++ extra) alpha
  = Gumbel.confidence_interval self parameters F alpha.
Proof.
  intros Hd Hl Hs Hpos Hany Hlen.
  assert (any (F ++ extra) = true) as Hany'
    by (unfold any in *; rewrite existsb_app, Hany; done).
  rewrite (confidence_interval_steps self parameters (F ++ extra) data alpha l s)
    by done.
  rewrite (confidence_interval_steps self parameters F data alpha l s) by done.
  assert (forall op : R -> R -> R,
    comprehension
      (fun j =>
         q ← getitem (map (fun f => l - s * ln (- ln f)) (F ++ extra)) j;
         e ← getitem (map (fun f => spec_standard_error s (length data)
                                      (spec_reduced_variate f)) (F ++ extra)) j;
         Ok (op q e)) (seq 0 (length data))
    = comprehension
      (fun j =>
         q ← getitem (map (fun f => l - s * ln (- ln f)) F) j;
         e ← getitem (map (fun f => spec_standard_error s (length data)
                                      (spec_reduced_variate f)) F) j;
         Ok (op q e)) (seq 0 (length data))) as Hext.
  { intros op. apply comprehension_ext. intros j Hj. apply elem_of_seq in Hj.
    by rewrite !getitem_prefix by lia. }
  rewrite (Hext (fun q e => q + norm_ppf (1 - alpha / 2) 0 1 * e)).
  by rewrite (Hext (fun q e => q - norm_ppf (1 - alpha / 2) 0 1 * e)).
Qed.


End interval_more.


Lemma X13_interval_ignores_extra_probabilities_witness :
  self_data (Gumbel.__init__ (Some [1; 2]) None) = Some [1; 2]
  /\ loc_scale 0 1 !! "loc" = Some 0
  /\ loc_scale 0 1 !! "scale" = Some 1
  /\ 0 < 1
  /\ any [0.25; 0.5] = true
  /\ (length ([1; 2]%R : list R) <= length ([0.25; 0.5]%R : list R))%nat
  /\ @Gumbel.confidence_interval stub (Gumbel.__init__ (Some [1; 2]) None)
       (loc_scale 0 1) ([0.25; 0.5] ++ [0.75; 0.9]) 0.1
     = @Gumbel.confidence_interval stub (Gumbel.__init__ (Some [1; 2]) None)
         (loc_scale 0 1) [0.25; 0.5] 0.1.
Proof.
  assert (0 < 1) as Hpos by lra.
  assert (any [0.25; 0.5] = true) as Hany by (apply any_head_nonzero; lra).
  assert (length ([1; 2]%R : list R) <= length ([0.25; 0.5]%R : list R))%nat as Hlen
    by (simpl; lia).
  do 3 (split; [reflexivity|]). split; [exact Hpos|]. split; [exact Hany|].
  split; [exact Hlen|].
  exact (@X13_interval_ignores_extra_probabilities stub
           (Gumbel.__init__ (Some [1; 2]) None) (loc_scale 0 1) [0.25; 0.5] [0.75; 0.9]
           [1; 2] 0.1 0 1 eq_refl eq_refl eq_refl Hpos Hany Hlen).
Defined.


(** ** More on the two tests *)

Section tests_more.
Context `{Externals}.

(** X15: a successful [ks] returns the pair that [ks_2samp] gave for the
    sample and the quantiles at its plotting positions, stores it in
    [Dstatic] and [KS_Pvalue] and leaves every other attribute alone.  It
    prints four lines; the third is "Accept Hypothesis" exactly when the
    statistic is below [KStable]. *)
Theorem X15_ks_records_and_reports (fam : family) (s : process)
  (p : gmap string R) (cdfW Qth data : list R) (t : R * R) (K : R) :
  self_parameters (obj s) = Some (Some p) ->
  self_cdf_Weibul (obj s) = Some cdfW ->
  theoretical_estimate fam p cdfW = Ok Qth ->
  self_data (obj s) = Some data ->
  ks_2samp data Qth = Ok t ->
  self_KStable (obj s) = Some K ->
  ks fam s
  = (Ok t,
     {| obj := set_KS_Pvalue (Some t.2) (set_Dstatic (Some t.1) (obj s));
        stdout := stdout s
                  ++ ["-----KS Test--------";
                      "Statistic = " +:+ str_float t.1;
                      if bool_decide (t.1 < K) then "Accept Hypothesis"
                      else "reject Hypothesis";
                      "P value = " +:+ str_float t.2] |}).
Proof.
  intros Hp Hw Hq Hd Ht HK. rewrite ks_dispatch. unfold AbstractDistribution.ks.
  run_M. rewrite Hp. simpl. rewrite Hw. simpl. rewrite Hq. simpl. rewrite Hd. simpl.
  rewrite Ht. simpl. rewrite HK. simpl.
  case_bool_decide; simpl; by rewrite <- !app_assoc.
Qed.

(** X16: a successful [chisquare] returns the pair scipy's test gave for
    the standardised quantiles and the standardised sample, stores it in
    [chistatic] and [chi_Pvalue], leaves every other attribute alone and
    prints three lines. *)
Theorem X16_chisquare_records_and_reports (fam : family) (s : process)
  (p : gmap string R) (cdfW Qth data : list R) (t : R * R) :
  self_parameters (obj s) = Some (Some p) ->
  self_cdf_Weibul (obj s) = Some cdfW ->
  theoretical_estimate fam p cdfW = Ok Qth ->
  self_data (obj s) = Some data ->
  chisquare_expression Qth data = Ok t ->
  chisquare fam s
  = (Ok (Some t),
     {| obj := set_chi_Pvalue (Some t.2) (set_chistatic (Some t.1) (obj s));
        stdout := stdout s
                  ++ ["-----chisquare Test-----";
                      "Statistic = " +:+ str_float t.1;
                      "P value = " +:+ str_float t.2] |}).
Proof.
  intros Hp Hw Hq Hd Ht. rewrite chisquare_dispatch.
  unfold AbstractDistribution.chisquare, chisquare_expression in *.
  run_M. rewrite Hp. simpl. rewrite Hw. simpl. rewrite Hq. simpl.
  destruct (standardize Qth) as [a|e1]; simpl in *; [|discriminate].
  rewrite Hd. simpl.
  destruct (standardize data) as [b|e2]; simpl in *; [|discriminate].
  rewrite Ht. simpl. by rewrite <- !app_assoc.
Qed.

(** X17: the [try ... except ValueError] that GEV, Exponential and Normal
    put around [self.chisquare()] never fires: in every family the block
    under [if test:] behaves exactly like [self.ks(); self.chisquare()]. *)
Theorem X17_chisquare_wrapper_never_fires (fam : family) (s : process) :
  diagnostics fam s = (ks fam;; chisquare fam;; mret tt) s.
Proof.
  destruct fam; [reflexivity| | |];
    unfold diagnostics;
    change GEV.ks with (ks gev); change GEV.chisquare with (chisquare gev);
    change Exponential.ks with (ks exponential);
    change Exponential.chisquare with (chisquare exponential);
    change Normal.ks with (ks normal); change Normal.chisquare with (chisquare normal);
    unfold mbind, M_bind, try_except.
  all: match goal with |- context [ks ?f ?s0] =>
         destruct (ks f s0) as [[t|e] s1] eqn:Hks; [|done];
         destruct (ks_returns f s0 s1 t Hks) as (p & cdfW & Qth & _ & _ & Hq & Hp & Hw & _);
         destruct (chisquare_returns f s1 p cdfW Qth Hp Hw Hq) as (r & s2 & Hchi);
         by rewrite Hchi
       end.
Qed.

Lemma bind_run {A B} (m : M A) (k : A -> M B) (s : process) :
  (m ≫= k) s
  = match m s with
    | (Ok a, s') => k a s'
    | (Raise e, s') => (Raise e, s')
    end.
Proof. reflexivity. Qed.

Lemma keeps_sample_ret {A} (a : A) : keeps_sample (mret a : M A).
Proof. done. Qed.

Lemma keeps_sample_raise {A} (e : exn) : keeps_sample (@raise A e).
Proof. done. Qed.

Lemma keeps_sample_lift {A} (r : result A) : keeps_sample (lift r).
Proof. done. Qed.

Lemma keeps_sample_print (line : string) : keeps_sample (print line).
Proof. done. Qed.

Lemma keeps_sample_getattr {A} (name : string) (proj : Distribution -> option A) :
  keeps_sample (getattr name proj).
Proof. intros s. unfold getattr. by destruct (proj (obj s)). Qed.

Lemma keeps_sample_setattr (upd : Distribution -> Distribution) :
  (forall d, sample_view (upd d) = sample_view d) -> keeps_sample (setattr upd).
Proof. intros Hupd s. apply Hupd. Qed.

Lemma keeps_sample_bind {A B} (m : M A) (k : A -> M B) :
  keeps_sample m -> (forall a, keeps_sample (k a)) -> keeps_sample (m ≫= k).
Proof.
  intros Hm Hk s. rewrite bind_run. specialize (Hm s).
  destruct (m s) as [[a|e] s1]; simpl in *; [|done].
  by rewrite (Hk a s1).
Qed.

Lemma keeps_sample_try {A} (body : M A) (handles : exn -> bool) (handler : exn -> M A) :
  keeps_sample body -> (forall e, keeps_sample (handler e)) ->
  keeps_sample (try_except body handles handler).
Proof.
  intros Hb Hh s. unfold try_except. specialize (Hb s).
  destruct (body s) as [[a|e] s1]; simpl in *; [done|].
  destruct (handles e); simpl; [|done]. by rewrite (Hh e s1).
Qed.

Ltac keeps :=
  repeat first
    [ apply keeps_sample_ret | apply keeps_sample_raise | apply keeps_sample_lift
    | apply keeps_sample_print | apply keeps_sample_getattr
    | apply keeps_sample_setattr; intros ?; reflexivity
    | apply keeps_sample_bind; [|intros ?]
    | apply keeps_sample_try; [|intros ?]
    | match goal with
      | |- keeps_sample (if ?b then _ else _) => destruct b
      | |- keeps_sample (match ?x with _ => _ end) => destruct x
      end ].

(** X18: the sample is never touched once attached: whatever the method,
    the arguments, the test flag and the outcome, [estimate_parameter]
    leaves [data], [data_sorted], [cdf_Weibul] and [KStable] as they
    were. *)
Theorem X18_estimation_keeps_the_sample (fam : family) (method : string)
  (ObjFunc : option objective) (threshold : option R) (test : bool) (s : process) :
  sample_view (obj (estimate_parameter fam method ObjFunc threshold test s).2)
  = sample_view (obj s).
Proof.
  revert s. change (keeps_sample (estimate_parameter fam method ObjFunc threshold test)).
  destruct fam; simpl;
    unfold Gumbel.estimate_parameter, GEV.estimate_parameter,
      Exponential.estimate_parameter, Normal.estimate_parameter,
      Gumbel.ks, Gumbel.chisquare, GEV.ks, GEV.chisquare, Exponential.ks,
      Exponential.chisquare, Normal.ks, Normal.chisquare,
      AbstractDistribution.ks, AbstractDistribution.chisquare;
    cbv zeta; keeps.
Qed.

(** X19: an object that was given parameters but no sample has no
    plotting positions: [ks] and [chisquare] raise [AttributeError] for
    [cdf_Weibul] and change nothing. *)
Theorem X19_tests_need_a_sample (fam : family) (s : process) (p : gmap string R) :
  self_parameters (obj s) = Some (Some p) ->
  self_cdf_Weibul (obj s) = None ->
  ks fam s = (Raise (AttributeError "cdf_Weibul"), s)
  /\ chisquare fam s = (Raise (AttributeError "cdf_Weibul"), s).
Proof.
  intros Hp Hw. rewrite ks_dispatch, chisquare_dispatch.
  unfold AbstractDistribution.ks, AbstractDistribution.chisquare. run_M.
  rewrite Hp. simpl. by rewrite Hw.
Qed.

(** When [theoretical_estimate] rejects the stored parameters or the
    plotting positions, both tests raise its exception and change
    nothing. *)
Lemma tests_raise_with_quantiles (fam : family) (s : process) (p : gmap string R)
  (cdfW : list R) (e : exn) :
  self_parameters (obj s) = Some (Some p) ->
  self_cdf_Weibul (obj s) = Some cdfW ->
  theoretical_estimate fam p cdfW = Raise e ->
  ks fam s = (Raise e, s) /\ chisquare fam s = (Raise e, s).
Proof.
  intros Hp Hw Hq. rewrite ks_dispatch, chisquare_dispatch.
  unfold AbstractDistribution.ks, AbstractDistribution.chisquare. run_M.
  rewrite Hp. simpl. rewrite Hw. simpl. by rewrite Hq.
Qed.

(** X20: a Gumbel object over the empty sample has no plotting position,
    and Gumbel's guard rejects the empty array: with a positive scale,
    [ks] and [chisquare] raise [ValueError] "cdf Value Invalid" and change
    nothing. *)
Theorem X20_Gumbel_tests_on_empty_sample (p : gmap string R) (sc : R)
  (out : list string) :
  p !! "scale" = Some sc -> 0 < sc ->
  ks gumbel {| obj := Gumbel.__init__ (Some []) (Some p); stdout := out |}
  = (Raise (ValueError "cdf Value Invalid"),
     {| obj := Gumbel.__init__ (Some []) (Some p); stdout := out |})
  /\ chisquare gumbel {| obj := Gumbel.__init__ (Some []) (Some p); stdout := out |}
  = (Raise (ValueError "cdf Value Invalid"),
     {| obj := Gumbel.__init__ (Some []) (Some p); stdout := out |}).
Proof.
  intros Hs Hpos.
  apply (tests_raise_with_quantiles gumbel _ p []); [done|done|].
  by apply (Gumbel_theoretical_estimate_all_zero p [] sc).
Qed.

End tests_more.

Lemma X15_ks_records_and_reports_witness :
  self_parameters (obj gumbel_fit) = Some (Some (loc_scale 0 1))
  /\ self_cdf_Weibul (obj gumbel_fit) = Some (PlottingPosition.weibul_values [1; 2] false)
  /\ @theoretical_estimate stub gumbel (loc_scale 0 1)
       (PlottingPosition.weibul_values [1; 2] false) = Ok gumbel_fit_Qth
  /\ self_data (obj gumbel_fit) = Some [1; 2]
  /\ @ks_2samp stub [1; 2] gumbel_fit_Qth = Ok (0, 1)
  /\ self_KStable (obj gumbel_fit) = Some (1.22 / sqrt (INR 2))
  /\ @ks stub gumbel gumbel_fit
     = (Ok (0, 1),
        {| obj := set_KS_Pvalue (Some 1) (set_Dstatic (Some 0) (obj gumbel_fit));
           stdout := ["-----KS Test--------";
                      "Statistic = <float>";
                      if bool_decide (0 < 1.22 / sqrt (INR 2)) then "Accept Hypothesis"
                      else "reject Hypothesis";
                      "P value = <float>"] |}).
Proof.
  do 2 (split; [reflexivity|]). split; [exact gumbel_fit_quantiles|].
  do 3 (split; [reflexivity|]).
  exact (@X15_ks_records_and_reports stub gumbel gumbel_fit (loc_scale 0 1)
           (PlottingPosition.weibul_values [1; 2] false) gumbel_fit_Qth [1; 2] (0, 1)
           (1.22 / sqrt (INR 2)) eq_refl eq_refl gumbel_fit_quantiles eq_refl eq_refl
           eq_refl).
Defined.

Lemma X16_chisquare_records_and_reports_witness :
  self_parameters (obj gumbel_fit) = Some (Some (loc_scale 0 1))
  /\ self_cdf_Weibul (obj gumbel_fit) = Some (PlottingPosition.weibul_values [1; 2] false)
  /\ @theoretical_estimate stub_closed_form gumbel (loc_scale 0 1)
       (PlottingPosition.weibul_values [1; 2] false) = Ok gumbel_fit_Qth
  /\ self_data (obj gumbel_fit) = Some [1; 2]
  /\ @chisquare_expression stub_closed_form gumbel_fit_Qth [1; 2] = Ok (0, 1)
  /\ @chisquare stub_closed_form gumbel gumbel_fit
     = (Ok (Some (0, 1)),
        {| obj := set_chi_Pvalue (Some 1) (set_chistatic (Some 0) (obj gumbel_fit));
           stdout := ["-----chisquare Test-----";
                      "Statistic = <float>";
                      "P value = <float>"] |}).
Proof.
  do 2 (split; [reflexivity|]). split; [exact gumbel_fit_quantiles|].
  do 2 (split; [reflexivity|]).
  exact (@X16_chisquare_records_and_reports stub_closed_form gumbel gumbel_fit
           (loc_scale 0 1) (PlottingPosition.weibul_values [1; 2] false) gumbel_fit_Qth
           [1; 2] (0, 1) eq_refl eq_refl gumbel_fit_quantiles eq_refl eq_refl).
Defined.

Lemma X19_tests_need_a_sample_witness :
  self_parameters (Gumbel.__init__ None (Some (loc_scale 0 1)))
  = Some (Some (loc_scale 0 1))
  /\ self_cdf_Weibul (Gumbel.__init__ None (Some (loc_scale 0 1))) = None
  /\ @ks stub gumbel {| obj := Gumbel.__init__ None (Some (loc_scale 0 1)); stdout := [] |}
     = (Raise (AttributeError "cdf_Weibul"),
        {| obj := Gumbel.__init__ None (Some (loc_scale 0 1)); stdout := [] |})
  /\ @chisquare stub gumbel
       {| obj := Gumbel.__init__ None (Some (loc_scale 0 1)); stdout := [] |}
     = (Raise (AttributeError "cdf_Weibul"),
        {| obj := Gumbel.__init__ None (Some (loc_scale 0 1)); stdout := [] |}).
Proof.
  do 2 (split; [reflexivity|]).
  exact (@X19_tests_need_a_sample stub gumbel
           {| obj := Gumbel.__init__ None (Some (loc_scale 0 1)); stdout := [] |}
           (loc_scale 0 1) eq_refl eq_refl).
Defined.

Lemma X20_Gumbel_tests_on_empty_sample_witness :
  loc_scale 0 1 !! "scale" = Some 1
  /\ 0 < 1
  /\ @ks stub gumbel
       {| obj := Gumbel.__init__ (Some []) (Some (loc_scale 0 1)); stdout := [] |}
     = (Raise (ValueError "cdf Value Invalid"),
        {| obj := Gumbel.__init__ (Some []) (Some (loc_scale 0 1)); stdout := [] |})
  /\ @chisquare stub gumbel
       {| obj := Gumbel.__init__ (Some []) (Some (loc_scale 0 1)); stdout := [] |}
     = (Raise (ValueError "cdf Value Invalid"),
        {| obj := Gumbel.__init__ (Some []) (Some (loc_scale 0 1)); stdout := [] |}).
Proof.
  assert (0 < 1) as Hpos by lra.
  split; [reflexivity|]. split; [exact Hpos|].
  exact (@X20_Gumbel_tests_on_empty_sample stub (loc_scale 0 1) 1 [] eq_refl Hpos).
Defined.

(** ** More on the estimation dispatcher *)

Lemma ascii_lower_idempotent (c : ascii) : ascii_lower (ascii_lower c) = ascii_lower c.
Proof. by destruct c as [[] [] [] [] [] [] [] []]. Qed.

Lemma lower_idempotent (s : string) : lower (lower s) = lower s.
Proof.
  induction s as [|c s IH]; simpl; [done|].
  by rewrite ascii_lower_idempotent, IH.
Qed.

Lemma reads_data_lift {A} (r : result A) : reads_data (lift r).
Proof. done. Qed.

Lemma reads_data_raise {A} (e : exn) : reads_data (@raise A e).
Proof. done. Qed.

Lemma reads_data_ret {A} (a : A) : reads_data (mret a : M A).
Proof. done. Qed.

Lemma reads_data_getattr : reads_data (getattr "data" self_data).
Proof. intros s. unfold getattr. simpl. by destruct (self_data (obj s)). Qed.

Lemma reads_data_bind {A B} (m : M A) (k : A -> M B) :
  reads_data m -> (forall a, reads_data (k a)) -> reads_data (m ≫= k).
Proof.
  intros Hm Hk s. rewrite !bind_run.
  rewrite (Hm s). rewrite (Hm (probe _)). simpl.
  destruct (m (probe (self_data (obj s)))).1 as [a|e]; simpl; [|done].
  rewrite (Hk a s). by rewrite (Hk a (probe _)).
Qed.

Lemma stores_result_raise (e : exn) : stores_result (raise e).
Proof. done. Qed.

Lemma stores_result_final (P : gmap string R) :
  stores_result (setattr (set_parameters (Some P));; mret tt;; mret P).
Proof. done. Qed.

Lemma stores_result_bind {A} (m : M A) (k : A -> M (gmap string R)) :
  reads_data m -> (forall a, stores_result (k a)) -> stores_result (m ≫= k).
Proof.
  intros Hm Hk s. rewrite !bind_run.
  rewrite (Hm s). rewrite (Hm (probe _)). simpl.
  destruct (m (probe (self_data (obj s)))).1 as [a|e]; simpl; [|done].
  apply (Hk a s).
Qed.

Ltac reads :=
  repeat first
    [ apply reads_data_lift | apply reads_data_raise | apply reads_data_ret
    | apply reads_data_getattr
    | apply reads_data_bind; [|intros ?]
    | match goal with
      | |- reads_data (if ?b then _ else _) => destruct b
      | |- reads_data (match ?x with _ => _ end) => destruct x
      end ].

Ltac stores :=
  repeat first
    [ apply stores_result_raise | apply stores_result_final
    | apply stores_result_bind; [reads | intros ?]
    | match goal with
      | |- stores_result (if ?b then _ else _) => destruct b
      end ].

Section estimation_more.
Context `{Externals}.

Lemma theoretical_estimate_scale_guard (fam : family) (p : gmap string R) (F : list R)
  (sc : R) :
  p !! "scale" = Some sc -> sc <= 0 ->
  exists msg, theoretical_estimate fam p F = Raise (ValueError msg).
Proof.
  intros Hs Hneg.
  destruct fam; simpl;
    unfold Gumbel.theoretical_estimate, GEV.theoretical_estimate,
      Exponential.theoretical_estimate, Normal.theoretical_estimate;
    rewrite Hs, (le0_Some_nonpos sc Hneg); simpl; eauto.
Qed.

Lemma diagnostics_stop_at_ks (fam : family) (s s' : process) (e : exn) :
  ks fam s = (Raise e, s') -> diagnostics fam s = (Raise e, s').
Proof.
  intros Hks. destruct fam; simpl in *; unfold mbind, M_bind; by rewrite Hks.
Qed.

(** Without tests, [estimate_parameter] computes a dictionary from the
    sample alone, and on success assigns it and returns it. *)
Lemma fit_stage_stores (fam : family) (method : string)
  (ObjFunc : option objective) (threshold : option R) :
  stores_result (estimate_parameter fam method ObjFunc threshold false).
Proof.
  destruct fam; simpl;
    unfold Gumbel.estimate_parameter, GEV.estimate_parameter,
      Exponential.estimate_parameter, Normal.estimate_parameter;
    cbv zeta; stores.
Qed.

Lemma fit_stage_state (fam : family) (method : string)
  (ObjFunc : option objective) (threshold : option R) (s s1 : process)
  (P : gmap string R) :
  estimate_parameter fam method ObjFunc threshold false s = (Ok P, s1) ->
  s1 = {| obj := set_parameters (Some P) (obj s); stdout := stdout s |}.
Proof.
  rewrite (fit_stage_stores fam method ObjFunc threshold s).
  destruct (estimate_parameter fam method ObjFunc threshold false
              (probe (self_data (obj s)))).1; intros Hrun; congruence.
Qed.

Lemma fit_stage_ignores_prior (fam : family) (method : string)
  (ObjFunc : option objective) (threshold : option R) (s : process)
  (v : option (gmap string R)) :
  estimate_parameter fam method ObjFunc threshold false
    {| obj := set_parameters v (obj s); stdout := stdout s |}
  = match estimate_parameter fam method ObjFunc threshold false s with
    | (Ok P, s1) => (Ok P, s1)
    | (Raise e, _) => (Raise e, {| obj := set_parameters v (obj s); stdout := stdout s |})
    end.
Proof.
  rewrite (fit_stage_stores fam method ObjFunc threshold s).
  rewrite (fit_stage_stores fam method ObjFunc threshold
             {| obj := set_parameters v (obj s); stdout := stdout s |}).
  change (self_data (obj {| obj := set_parameters v (obj s); stdout := stdout s |}))
    with (self_data (obj s)).
  by destruct (estimate_parameter fam method ObjFunc threshold false
                 (probe (self_data (obj s)))).1.
Qed.

(** X21: a method name that, in lower case, is none of "mle", "mm",
    "lmoments" and "optimization" raises [ValueError] in every family,
    whatever the other arguments, and changes nothing. *)
Theorem X21_unknown_method_is_rejected (fam : family) (method : string)
  (ObjFunc : option objective) (threshold : option R) (test : bool) (s : process) :
  known_method (lower method) = false ->
  exists msg,
    estimate_parameter fam method ObjFunc threshold test s = (Raise (ValueError msg), s).
Proof.
  intros Hm.
  destruct fam; simpl;
    unfold Gumbel.estimate_parameter, GEV.estimate_parameter,
      Exponential.estimate_parameter, Normal.estimate_parameter;
    rewrite Hm; simpl; eauto.
Qed.

(** X22: the method name is read without regard to letter case: a call
    with [method] and a call with its lower-case form do the same. *)
Theorem X22_method_is_case_insensitive (fam : family) (method : string)
  (ObjFunc : option objective) (threshold : option R) (test : bool) (s : process) :
  estimate_parameter fam method ObjFunc threshold test s
  = estimate_parameter fam (lower method) ObjFunc threshold test s.
Proof.
  destruct fam; simpl;
    unfold Gumbel.estimate_parameter, GEV.estimate_parameter,
      Exponential.estimate_parameter, Normal.estimate_parameter;
    by rewrite lower_idempotent.
Qed.

(** X23: with "mle" or "mm" the vector comes from scipy's fit of the
    family, called with that method name; with "lmoments" it comes from the
    L-moments of the sample, converted for the family.  Either way the
    dictionary stored and returned is the canonical one: entries 0 and 1 are
    loc and scale, except for GEV, whose vector is (shape, loc, scale).  The
    objective and the threshold play no part. *)
Theorem X23_fit_and_lmoments_methods (fam : family) (method : string) (s : process)
  (data v : list R) :
  self_data (obj s) = Some data ->
  ((lower method = "mle" \/ lower method = "mm") /\ fit fam data (lower method) = Ok v)
  \/ (lower method = "lmoments"
      /\ exists LMU, Lmoments_Lmom data = Ok LMU /\ lmoments_of fam LMU = Ok v) ->
  (arity fam <= length v)%nat ->
  exists P,
    canonical fam v = Some P
    /\ forall ObjFunc threshold,
         estimate_parameter fam method ObjFunc threshold false s
         = (Ok P, {| obj := set_parameters (Some P) (obj s); stdout := stdout s |}).
Proof.
  intros Hd Hsrc Hlen.
  destruct Hsrc as [[[Hm|Hm] Hfit]|(Hm & LMU & HL & Hconv)];
    destruct fam; simpl in *;
    unfold Gumbel.estimate_parameter, GEV.estimate_parameter,
      Exponential.estimate_parameter, Normal.estimate_parameter;
    rewrite Hm in *; run_M; rewrite Hd; simpl;
    rewrite ?Hfit, ?HL; simpl; rewrite ?Hconv; simpl;
    destruct v as [|v0 [|v1 [|v2 v]]]; simpl in Hlen; try lia;
    simpl; eauto.
Qed.

(** X24: the dispatcher does not validate what it fits, and it stores
    before it tests.  If the fitted scale is not positive, a call without
    tests returns the dictionary as it is; the same call with tests, on an
    object with a sample, raises [ValueError] from [ks], yet the object
    keeps the new dictionary. *)
Theorem X24_invalid_fit_is_stored (fam : family) (method : string)
  (ObjFunc : option objective) (threshold : option R) (s s1 : process)
  (P : gmap string R) (sc : R) (cdfW : list R) :
  estimate_parameter fam method ObjFunc threshold false s = (Ok P, s1) ->
  P !! "scale" = Some sc -> sc <= 0 ->
  self_cdf_Weibul (obj s) = Some cdfW ->
  self_parameters (obj s1) = Some (Some P)
  /\ exists msg,
       estimate_parameter fam method ObjFunc threshold true s
       = (Raise (ValueError msg), s1).
Proof.
  intros Hfit Hs Hneg Hw.
  pose proof (estimate_parameter_then_tests fam method ObjFunc threshold s) as Hsplit.
  rewrite Hfit in Hsplit. destruct Hsplit as [Hp Htrue].
  split; [done|].
  assert (self_cdf_Weibul (obj s1) = Some cdfW) as Hw1.
  { by rewrite (fit_stage_state fam method ObjFunc threshold s s1 P Hfit). }
  destruct (theoretical_estimate_scale_guard fam P cdfW sc Hs Hneg) as [msg Hq].
  destruct (tests_raise_with_quantiles fam s1 P cdfW _ Hp Hw1 Hq) as [Hks _].
  exists msg. by rewrite Htrue, (diagnostics_stop_at_ks fam s1 s1 _ Hks).
Qed.

(** X25: a new estimation replaces the dictionary wholesale: the
    parameters the object held before have no influence on what the call
    returns, nor, when it returns, on the state it leaves. *)
Theorem X25_previous_parameters_do_not_matter (fam : family) (method : string)
  (ObjFunc : option objective) (threshold : option R) (test : bool) (s : process)
  (v : option (gmap string R)) :
  (estimate_parameter fam method ObjFunc threshold test
     {| obj := set_parameters v (obj s); stdout := stdout s |}).1
  = (estimate_parameter fam method ObjFunc threshold test s).1
  /\ (forall P,
        (estimate_parameter fam method ObjFunc threshold test s).1 = Ok P ->
        (estimate_parameter fam method ObjFunc threshold test
           {| obj := set_parameters v (obj s); stdout := stdout s |}).2
        = (estimate_parameter fam method ObjFunc threshold test s).2).
Proof.
  pose proof (fit_stage_ignores_prior fam method ObjFunc threshold s v) as Hprior.
  destruct test.
  - pose proof (estimate_parameter_then_tests fam method ObjFunc threshold s) as Hs.
    pose proof (estimate_parameter_then_tests fam method ObjFunc threshold
                  {| obj := set_parameters v (obj s); stdout := stdout s |}) as Hv.
    rewrite Hprior in Hv.
    destruct (estimate_parameter fam method ObjFunc threshold false s) as [[P|e] s1].
    + destruct Hs as [_ ->]. destruct Hv as [_ ->]. by split.
    + rewrite Hs, Hv. simpl. split; [done|]. intros P HP. discriminate.
  - rewrite Hprior.
    destruct (estimate_parameter fam method ObjFunc threshold false s) as [[P|e] s1];
      simpl; split; try done; intros P' HP; discriminate.
Qed.

End estimation_more.

Lemma X21_unknown_method_is_rejected_witness :
  known_method (lower "Bayes") = false
  /\ exists msg,
       @estimate_parameter stub gev "Bayes" None None true gumbel_unfit
       = (Raise (ValueError msg), gumbel_unfit).
Proof.
  split; [reflexivity|].
  exact (@X21_unknown_method_is_rejected stub gev "Bayes" None None true gumbel_unfit
           eq_refl).
Defined.

Lemma X23_fit_and_lmoments_methods_witness :
  self_data (obj gumbel_unfit) = Some [1; 2]
  /\ (((lower "MLE" = "mle" \/ lower "MLE" = "mm")
       /\ @fit stub gev [1; 2] (lower "MLE") = Ok [0; 0; 1])
      \/ (lower "MLE" = "lmoments"
          /\ exists LMU, @Lmoments_Lmom stub [1; 2] = Ok LMU
                         /\ @lmoments_of stub gev LMU = Ok [0; 0; 1]))
  /\ (arity gev <= length ([0; 0; 1]%R : list R))%nat
  /\ exists P,
       canonical gev [0; 0; 1] = Some P
       /\ forall ObjFunc threshold,
            @estimate_parameter stub gev "MLE" ObjFunc threshold false gumbel_unfit
            = (Ok P, {| obj := set_parameters (Some P) (obj gumbel_unfit);
                        stdout := stdout gumbel_unfit |}).
Proof.
  assert (((lower "MLE" = "mle" \/ lower "MLE" = "mm")
           /\ @fit stub gev [1; 2] (lower "MLE") = Ok [0; 0; 1])
          \/ (lower "MLE" = "lmoments"
              /\ exists LMU, @Lmoments_Lmom stub [1; 2] = Ok LMU
                             /\ @lmoments_of stub gev LMU = Ok [0; 0; 1])) as Hsrc
    by (left; split; [left|]; reflexivity).
  assert (arity gev <= length ([0; 0; 1]%R : list R))%nat as Hlen by (simpl; lia).
  split; [reflexivity|]. split; [exact Hsrc|]. split; [exact Hlen|].
  exact (@X23_fit_and_lmoments_methods stub gev "MLE" gumbel_unfit [1; 2] [0; 0; 1]
           eq_refl Hsrc Hlen).
Defined.

Lemma X24_invalid_fit_is_stored_witness :
  @estimate_parameter stub_zero_scale gumbel "mm" None None false gumbel_unfit
  = (Ok (loc_scale 0 0),
     {| obj := set_parameters (Some (loc_scale 0 0)) (obj gumbel_unfit); stdout := [] |})
  /\ loc_scale 0 0 !! "scale" = Some 0
  /\ 0 <= 0
  /\ self_cdf_Weibul (obj gumbel_unfit)
     = Some (PlottingPosition.weibul_values [1; 2] false)
  /\ self_parameters (set_parameters (Some (loc_scale 0 0)) (obj gumbel_unfit))
     = Some (Some (loc_scale 0 0))
  /\ exists msg,
       @estimate_parameter stub_zero_scale gumbel "mm" None None true gumbel_unfit
       = (Raise (ValueError msg),
          {| obj := set_parameters (Some (loc_scale 0 0)) (obj gumbel_unfit);
             stdout := [] |}).
Proof.
  assert (0 <= 0) as Hneg by lra.
  split; [reflexivity|]. split; [reflexivity|]. split; [exact Hneg|].
  split; [reflexivity|].
  exact (@X24_invalid_fit_is_stored stub_zero_scale gumbel "mm" None None gumbel_unfit
           {| obj := set_parameters (Some (loc_scale 0 0)) (obj gumbel_unfit);
              stdout := [] |}
           (loc_scale 0 0) 0 (PlottingPosition.weibul_values [1; 2] false)
           eq_refl eq_refl Hneg eq_refl).
Defined.

(** ** The truncated-likelihood objective *)

Lemma filter_all (P : R -> Prop) `{!forall v, Decision (P v)} (x : list R) :
  Forall P x -> filter P x = x.
Proof.
  induction 1 as [|v x Hv Hx IH]; [done|]. by rewrite filter_cons_True, IH.
Qed.

Lemma filter_none (P : R -> Prop) `{!forall v, Decision (P v)} (x : list R) :
  Forall (fun v => ~ P v) x -> filter P x = [].
Proof.
  induction 1 as [|v x Hv Hx IH]; [done|]. by rewrite filter_cons_False.
Qed.

Section objective.
Context `{Externals}.

(** With a positive scale the objective is the sum, over the observations
    below the threshold, of [-ln(pdf / scale)], plus [-ln(1 - cdf(threshold))]
    for each observation at or above it. *)
Lemma ObjectiveFn_value (c l sc : R) (rest x : list R) :
  0 < sc ->
  Gumbel.ObjectiveFn (c :: l :: sc :: rest) x
  = Ok (np_sum (map (fun v => - ln (gumbel_r_pdf v l sc / sc))
                  (filter (fun v => v < c) x))
        + - ln (1 - gumbel_r_cdf c l sc) * INR (length (filter (fun v => v >= c) x))).
Proof.
  intros Hpos. unfold Gumbel.ObjectiveFn, Gumbel._pdf_eq, Gumbel._cdf_eq.
  change (getitem (c :: l :: sc :: rest) 0) with (Ok c).
  change (getitem (c :: l :: sc :: rest) 1) with (Ok l).
  change (getitem (c :: l :: sc :: rest) 2) with (Ok sc).
  cbn [mbind result_bind].
  replace ((<["scale":=sc]> (<["loc":=l]> ∅) : gmap string R) !! "scale")
    with (Some sc) by done.
  replace ((<["scale":=sc]> (<["loc":=l]> ∅) : gmap string R) !! "loc")
    with (Some l) by done.
  rewrite (le0_Some_pos sc Hpos). cbn [mbind result_bind as_float].
  change (getitem (map (fun x0 => gumbel_r_cdf x0 l sc) [c]) 0)
    with (Ok (gumbel_r_cdf c l sc)).
  cbn [mbind result_bind]. by rewrite map_map.
Qed.

(** X26: the objective reads three entries of [p]: a shorter vector
    raises [IndexError]; and a candidate whose scale is not positive raises
    [ValueError], whatever the sample. *)
Theorem X26_objective_rejects_bad_candidates (p x : list R) :
  ((length p < 3)%nat ->
     Gumbel.ObjectiveFn p x = Raise (IndexError "index out of range"))
  /\ (forall c l sc rest, p = c :: l :: sc :: rest -> sc <= 0 ->
        Gumbel.ObjectiveFn p x = Raise (ValueError "Scale parameter is negative")).
Proof.
  split.
  - intros Hlen. unfold Gumbel.ObjectiveFn.
    destruct p as [|c [|l [|sc rest]]]; simpl in Hlen; try lia; reflexivity.
  - intros c l sc rest -> Hneg. unfold Gumbel.ObjectiveFn, Gumbel._pdf_eq.
    change (getitem (c :: l :: sc :: rest) 0) with (Ok c).
    change (getitem (c :: l :: sc :: rest) 1) with (Ok l).
    change (getitem (c :: l :: sc :: rest) 2) with (Ok sc).
    cbn [mbind result_bind].
    replace ((<["scale":=sc]> (<["loc":=l]> ∅) : gmap string R) !! "scale")
      with (Some sc) by done.
    by rewrite (le0_Some_nonpos sc Hneg).
Qed.

(** X28: the two extreme thresholds, for a candidate whose distribution
    function is below 1 at the threshold.  When every observation is below
    the threshold nothing is censored and the objective is the sum of
    [-ln(pdf / scale)] over the whole sample; when every observation is at
    or above it, the objective is n times [-ln(1 - cdf(threshold))]. *)
Theorem X28_objective_at_extreme_thresholds (c l sc : R) (rest x : list R) :
  0 < sc -> gumbel_r_cdf c l sc < 1 ->
  (Forall (fun v => v < c) x ->
     Gumbel.ObjectiveFn (c :: l :: sc :: rest) x
     = Ok (np_sum (map (fun v => - ln (gumbel_r_pdf v l sc / sc)) x)))
  /\ (Forall (fun v => v >= c) x ->
     Gumbel.ObjectiveFn (c :: l :: sc :: rest) x
     = Ok (- ln (1 - gumbel_r_cdf c l sc) * INR (length x))).
Proof.
  intros Hpos _. split; intros Hx; rewrite ObjectiveFn_value by done; f_equal.
  - rewrite (filter_all (fun v => v < c) x Hx).
    rewrite (filter_none (fun v => v >= c) x); [simpl; lra|].
    eapply Forall_impl; [exact Hx|]. intros v Hv. simpl in *. lra.
  - rewrite (filter_all (fun v => v >= c) x Hx).
    rewrite (filter_none (fun v => v < c) x); [simpl; lra|].
    eapply Forall_impl; [exact Hx|]. intros v Hv. simpl in *. lra.
Qed.

End objective.

Lemma X26_objective_rejects_bad_candidates_witness :
  (length ([5; 0]%R : list R) < 3)%nat
  /\ @Gumbel.ObjectiveFn stub [5; 0] [1; 2] = Raise (IndexError "index out of range")
  /\ -1 <= 0
  /\ @Gumbel.ObjectiveFn stub [5; 0; -1] [1; 2]
     = Raise (ValueError "Scale parameter is negative").
Proof.
  assert (length ([5; 0]%R : list R) < 3)%nat as Hlen by (simpl; lia).
  assert (-1 <= 0) as Hneg by lra.
  destruct (@X26_objective_rejects_bad_candidates stub [5; 0] [1; 2]) as [Hshort _].
  destruct (@X26_objective_rejects_bad_candidates stub [5; 0; -1] [1; 2]) as [_ Hscale].
  split; [exact Hlen|]. split; [exact (Hshort Hlen)|]. split; [exact Hneg|].
  exact (Hscale 5 0 (-1) [] eq_refl Hneg).
Defined.

Lemma X28_objective_at_extreme_thresholds_witness :
  0 < 1
  /\ @gumbel_r_cdf stub_closed_form 5 0 1 < 1
  /\ Forall (fun v => v < 5) [1; 2]
  /\ @Gumbel.ObjectiveFn stub_closed_form [5; 0; 1] [1; 2]
     = Ok (np_sum (map (fun v => - ln (@gumbel_r_pdf stub_closed_form v 0 1 / 1)) [1; 2]))
  /\ @gumbel_r_cdf stub_closed_form 0 0 1 < 1
  /\ Forall (fun v => v >= 0) [1; 2]
  /\ @Gumbel.ObjectiveFn stub_closed_form [0; 0; 1] [1; 2]
     = Ok (- ln (1 - @gumbel_r_cdf stub_closed_form 0 0 1) * INR (length ([1; 2]%R : list R))).
Proof.
  assert (0 < 1) as Hpos by lra.
  assert (forall x, @gumbel_r_cdf stub_closed_form x 0 1 < 1) as Hcdf.
  { intros x. simpl. rewrite <- exp_0 at 2. apply exp_increasing.
    pose proof (exp_pos (- ((x - 0) / 1))). lra. }
  assert (Forall (fun v => v < 5) [1; 2]) as Hlow by (repeat constructor; lra).
  assert (Forall (fun v => v >= 0) [1; 2]) as Hhigh by (repeat constructor; lra).
  destruct (@X28_objective_at_extreme_thresholds stub_closed_form 5 0 1 [] [1; 2] Hpos
              (Hcdf 5)) as [Hbelow _].
  destruct (@X28_objective_at_extreme_thresholds stub_closed_form 0 0 1 [] [1; 2] Hpos
              (Hcdf 0)) as [_ Habove].
  split; [exact Hpos|]. split; [exact (Hcdf 5)|]. split; [exact Hlow|].
  split; [exact (Hbelow Hlow)|]. split; [exact (Hcdf 0)|].
  split; [exact Hhigh|]. exact (Habove Hhigh).
Defined.
